(** * nanopy.rpc: a wrapper to make RPC requests to a node

    A shallow embedding of [src/nanopy/rpc.py].  The class [RPC] picks one of
    two transports from the URL it is given, every public method builds a
    Python [dict] called [data] and hands it to [_post], and [_post] delivers
    it over the chosen transport and decodes the reply.

    The libraries the module imports ([json], [requests], [websocket]) are
    not part of the repository.  [json] is an interface ([JsonCodec]);
    [requests] and [websocket] are modelled by what their documentation says
    about the handful of calls the module makes. *)

From Stdlib Require Import List String Ascii ZArith Bool Lia.
From Stdlib Require Import DecimalString.
Import ListNotations.
Open Scope string_scope.
Open Scope Z_scope.

Set Implicit Arguments.

(** ** Python values *)

(** The values that travel in payloads and replies.  Arguments of the
    methods are annotated [str], [int], [bool], [list[str]] and
    [dict[str, str]]; all of them are JSON values.  [JNull] is Python's
    [None]. *)
#[warnings="-register-all"]
Inductive json : Type :=
| JNull
| JBool (b : bool)
| JInt (z : Z)
| JStr (s : string)
| JList (l : list json)
| JObj (o : list (string * json)).

(** A Python [dict] with [str] keys: insertion ordered, assignment to a key
    already present keeps its position and replaces its value. *)
Definition dict := list (string * json).

Fixpoint setitem (k : string) (v : json) (d : dict) : dict :=
  match d with
  | [] => [(k, v)]
  | (k', v') :: d' =>
      if String.eqb k' k then (k', v) :: d' else (k', v') :: setitem k v d'
  end.

(** [d.get(k)] *)
Fixpoint lookup (k : string) (d : dict) : option json :=
  match d with
  | [] => None
  | (k', v) :: d' => if String.eqb k' k then Some v else lookup k d'
  end.

(** Python's truth value testing, as [if x:] applies it. *)
Class Truthy (A : Type) := truthy : A -> bool.

#[export] Instance Truthy_bool : Truthy bool := fun b => b.
#[export] Instance Truthy_str : Truthy string :=
  fun s => match s with EmptyString => false | _ => true end.
#[export] Instance Truthy_int : Truthy Z := fun z => negb (z =? 0).
#[export] Instance Truthy_list {A} : Truthy (list A) :=
  fun l => match l with [] => false | _ => true end.
#[export] Instance Truthy_option {A} `{Truthy A} : Truthy (option A) :=
  fun o => match o with None => false | Some a => truthy a end.

(** How an argument is stored in [data]. *)
Class ToJson (A : Type) := to_json : A -> json.

#[export] Instance ToJson_json : ToJson json := fun v => v.
#[export] Instance ToJson_bool : ToJson bool := JBool.
#[export] Instance ToJson_str : ToJson string := JStr.
#[export] Instance ToJson_int : ToJson Z := JInt.
#[export] Instance ToJson_list {A} `{ToJson A} : ToJson (list A) :=
  fun l => JList (map to_json l).
#[export] Instance ToJson_strdict : ToJson (list (string * string)) :=
  fun o => JObj (map (fun kv => (fst kv, JStr (snd kv))) o).
#[export] Instance ToJson_option {A} `{ToJson A} : ToJson (option A) :=
  fun o => match o with None => JNull | Some a => to_json a end.

(** A keyword argument left out of a call takes its default. *)
Definition or_default {A} (arg : option A) (default : A) : A :=
  match arg with Some a => a | None => default end.

Notation "arg ?: default" := (or_default arg default) (at level 40, no associativity).

(** ** Statements that fill [data] *)

Definition stmt := dict -> dict.

Definition assign {A} `{ToJson A} (k : string) (v : A) : stmt :=
  setitem k (to_json v).

Definition seq (s1 s2 : stmt) : stmt := fun d => s2 (s1 d).

Definition if_then {A} `{Truthy A} (c : A) (s : stmt) : stmt :=
  fun d => if truthy c then s d else d.

Definition if_else {A} `{Truthy A} (c : A) (s1 s2 : stmt) : stmt :=
  fun d => if truthy c then s1 d else s2 d.

Declare Scope py_scope.
Delimit Scope py_scope with py.
Bind Scope py_scope with stmt.
Arguments seq (s1 s2)%_py.
Arguments if_then {A _} c s%_py.
Arguments if_else {A _} c (s1 s2)%_py.
Notation "'data[' k ']' '::=' v" := (assign k v)
  (at level 60, k at level 0, v at level 59) : py_scope.
Notation "s1 ;; s2" := (seq s1 s2) (at level 61, left associativity) : py_scope.
Notation "'If' c 'then:' s" := (if_then c s)
  (at level 60, c at level 0, s at level 60) : py_scope.

(** [data: dict[str, Any] = {}] followed by the statements of a body. *)
Definition build (body : stmt) : dict := body [].
Arguments build body%_py.

Notation "'If' c 'then:' s1 'else:' s2" := (if_else c s1 s2)
  (at level 60, c at level 0, s1 at level 60, s2 at level 60) : py_scope.

(** [x in l] for a list of [str]. *)
Definition is_in (x : string) (l : list string) : bool :=
  existsb (String.eqb x) l.

(** An argument annotated [str | dict[str, str]]. *)
Inductive str_or_dict : Type :=
| Str (s : string)
| Dict (d : list (string * string)).

Definition isinstance_str (x : str_or_dict) : bool :=
  match x with Str _ => true | Dict _ => false end.

#[export] Instance ToJson_str_or_dict : ToJson str_or_dict :=
  fun x => match x with Str s => JStr s | Dict d => to_json d end.

(** [s[:n]] *)
Definition slice_to (n : nat) (s : string) : string := substring 0 n s.

(** ** Exceptions, and the calls that reach the outside *)

Inductive exn : Type :=
| AttributeError (msg : string)
| ConnectionError (url : string)
| HTTPError (status : Z) (body : string)
| JSONDecodeError (doc : string)
| WebSocketConnectionClosedException.

Inductive result (A : Type) : Type :=
| Ok (a : A)
| Raise (e : exn).
Arguments Ok {A} a.
Arguments Raise {A} e.

Definition headers_t := option (list (string * string)).

(** What is observable from outside the process. *)
Inductive event : Type :=
| Connect (url : string) (proxy : option (string * Z * string))
| HttpGet (url : string) (headers : headers_t) (proxies : list (string * string))
| HttpPost (url : string) (headers : headers_t) (proxies : list (string * string))
           (body : string)
| WsText (payload : string)
| WsClose.

(** A computation returns or raises, and leaves a trace. *)
Definition IO (A : Type) : Type := (result A * list event)%type.

Definition ret {A} (a : A) : IO A := (Ok a, []).
Definition raise {A} (e : exn) : IO A := (Raise e, []).
Definition emit (ev : event) : IO unit := (Ok tt, [ev]).

Definition bind {A B} (m : IO A) (f : A -> IO B) : IO B :=
  match m with
  | (Ok a, t) => let (r, t') := f a in (r, (t ++ t')%list)
  | (Raise e, t) => (Raise e, t)
  end.

Notation "'let!' x ':=' m 'in' k" := (bind m (fun x => k))
  (at level 10, x name, m at level 100, k at level 200, only parsing).
Notation "m >> k" := (bind m (fun _ => k))
  (at level 65, right associativity, only parsing).

Definition outcome {A} (m : IO A) : result A := fst m.
Definition trace {A} (m : IO A) : list event := snd m.

(** ** The libraries *)

(** [json.dumps] and [json.loads]; [loads] gives [None] where Python raises
    [JSONDecodeError]. *)
Class JsonCodec : Type := {
  dumps : json -> string;
  loads : string -> option json
}.

(** *** The [json] module of CPython

    A codec to run the model with: [json.dumps] with its default separators
    and [ensure_ascii], and [json.loads] on documents made of objects,
    arrays, strings, integers, [true], [false] and [null] (a number with a
    fraction or an exponent is outside the model and is not decoded).  The
    properties below are proved for every codec; this one serves to
    evaluate the model on sample data. *)
Module pyjson.

Definition chr (n : nat) : string := String (ascii_of_nat n) "".
Definition quote : string := chr 34.
Definition backslash : string := chr 92.

Definition hex_digit (n : nat) : string :=
  match substring n 1 "0123456789abcdef" with
  | "" => "0"
  | d => d
  end.

Definition escape (c : ascii) : string :=
  let n := nat_of_ascii c in
  if (n =? 34)%nat then backslash ++ quote
  else if (n =? 92)%nat then backslash ++ backslash
  else if (n =? 10)%nat then backslash ++ "n"
  else if (n =? 13)%nat then backslash ++ "r"
  else if (n =? 9)%nat then backslash ++ "t"
  else if (n =? 8)%nat then backslash ++ "b"
  else if (n =? 12)%nat then backslash ++ "f"
  else if (n <? 32)%nat || (126 <? n)%nat
       then backslash ++ "u00" ++ hex_digit (n / 16) ++ hex_digit (n mod 16)
  else String c "".

Fixpoint escape_all (s : string) : string :=
  match s with
  | "" => ""
  | String c s' => escape c ++ escape_all s'
  end.

Definition encode_str (s : string) : string := quote ++ escape_all s ++ quote.

Definition encode_int (z : Z) : string := NilZero.string_of_int (Z.to_int z).

Fixpoint join (sep : string) (l : list string) : string :=
  match l with
  | [] => ""
  | [x] => x
  | x :: l' => x ++ sep ++ join sep l'
  end.

Fixpoint encode (v : json) : string :=
  match v with
  | JNull => "null"
  | JBool true => "true"
  | JBool false => "false"
  | JInt z => encode_int z
  | JStr s => encode_str s
  | JList l => "[" ++ join ", " (map encode l) ++ "]"
  | JObj o =>
      "{" ++ join ", " (map (fun kv => encode_str (fst kv) ++ ": " ++ encode (snd kv)) o)
          ++ "}"
  end.

Definition is_space (c : ascii) : bool :=
  let n := nat_of_ascii c in
  (n =? 32)%nat || (n =? 9)%nat || (n =? 10)%nat || (n =? 13)%nat.

Fixpoint skip (s : string) : string :=
  match s with
  | String c s' => if is_space c then skip s' else s
  | "" => ""
  end.

Definition digit (c : ascii) : option Z :=
  let n := nat_of_ascii c in
  if (48 <=? n)%nat && (n <=? 57)%nat then Some (Z.of_nat (n - 48)) else None.

Definition hex (c : ascii) : option nat :=
  let n := nat_of_ascii c in
  if (48 <=? n)%nat && (n <=? 57)%nat then Some (n - 48)%nat
  else if (97 <=? n)%nat && (n <=? 102)%nat then Some (n - 87)%nat
  else if (65 <=? n)%nat && (n <=? 70)%nat then Some (n - 55)%nat
  else None.

Fixpoint digits (acc : Z) (s : string) : Z * string :=
  match s with
  | String c s' =>
      match digit c with
      | Some d => digits (10 * acc + d) s'
      | None => (acc, s)
      end
  | "" => (acc, "")
  end.

(** A number: an optional minus sign and digits; what follows must not
    turn it into a float. *)
Definition number (s : string) : option (json * string) :=
  let (neg, s) := match s with
                  | String "-" s' => (true, s')
                  | _ => (false, s)
                  end in
  match s with
  | String c _ =>
      match digit c with
      | Some _ =>
          let (z, rest) := digits 0 s in
          match rest with
          | String "." _ | String "e" _ | String "E" _ => None
          | _ => Some (JInt (if neg then - z else z), rest)
          end
      | None => None
      end
  | "" => None
  end.

(** The characters of a string, from after the opening quote to the closing
    one. *)
Fixpoint chars (s : string) : option (string * string) :=
  match s with
  | "" => None
  | String c s' =>
      let n := nat_of_ascii c in
      if (n =? 34)%nat then Some ("", s')
      else if (n =? 92)%nat then
        match s' with
        | String "u" (String a (String b (String c (String d r)))) =>
            match hex a, hex b, hex c, hex d, chars r with
            | Some 0%nat, Some 0%nat, Some h, Some l, Some (t, rest) =>
                Some (String (ascii_of_nat (16 * h + l)) t, rest)
            | _, _, _, _, _ => None
            end
        | String e r =>
            let m := nat_of_ascii e in
            let plain :=
              if (m =? 34)%nat then Some 34%nat
              else if (m =? 92)%nat then Some 92%nat
              else if (m =? 47)%nat then Some 47%nat
              else if (m =? 110)%nat then Some 10%nat
              else if (m =? 114)%nat then Some 13%nat
              else if (m =? 116)%nat then Some 9%nat
              else if (m =? 98)%nat then Some 8%nat
              else if (m =? 102)%nat then Some 12%nat
              else None in
            match plain, chars r with
            | Some k, Some (t, rest) => Some (String (ascii_of_nat k) t, rest)
            | _, _ => None
            end
        | "" => None
        end
      else if (n <? 32)%nat then None
      else match chars s' with
           | Some (t, rest) => Some (String c t, rest)
           | None => None
           end
  end.

Definition drop (n : nat) (s : string) : string :=
  substring n (String.length s - n) s.

Definition keyword (w : string) (v : json) (s : string) : option (json * string) :=
  if prefix w s then Some (v, drop (String.length w) s) else None.

Fixpoint value (fuel : nat) (s : string) : option (json * string) :=
  match fuel with
  | O => None
  | S fuel =>
      match skip s with
      | String "n" _ as s => keyword "null" JNull s
      | String "t" _ as s => keyword "true" (JBool true) s
      | String "f" _ as s => keyword "false" (JBool false) s
      | String "[" r =>
          match skip r with
          | String "]" r' => Some (JList [], r')
          | r =>
              match elements fuel r with
              | Some (l, rest) => Some (JList l, rest)
              | None => None
              end
          end
      | String "{" r =>
          match skip r with
          | String "}" r' => Some (JObj [], r')
          | r =>
              match members fuel r with
              | Some (o, rest) =>
                  Some (JObj (fold_left (fun d kv => setitem (fst kv) (snd kv) d) o []),
                        rest)
              | None => None
              end
          end
      | String c r as s =>
          if (nat_of_ascii c =? 34)%nat then
            match chars r with
            | Some (t, rest) => Some (JStr t, rest)
            | None => None
            end
          else number s
      | "" => None
      end
  end

with elements (fuel : nat) (s : string) : option (list json * string) :=
  match fuel with
  | O => None
  | S fuel =>
      match value fuel s with
      | Some (v, rest) =>
          match skip rest with
          | String "," r =>
              match elements fuel r with
              | Some (l, rest') => Some (v :: l, rest')
              | None => None
              end
          | String "]" r => Some ([v], r)
          | _ => None
          end
      | None => None
      end
  end

with members (fuel : nat) (s : string) : option (list (string * json) * string) :=
  match fuel with
  | O => None
  | S fuel =>
      match skip s with
      | String q r =>
          if (nat_of_ascii q =? 34)%nat then
            match chars r with
            | Some (k, rest) =>
                match skip rest with
                | String ":" r' =>
                    match value fuel r' with
                    | Some (v, rest') =>
                        match skip rest' with
                        | String "," r'' =>
                            match members fuel r'' with
                            | Some (o, rest'') => Some ((k, v) :: o, rest'')
                            | None => None
                            end
                        | String "}" r'' => Some ([(k, v)], r'')
                        | _ => None
                        end
                    | None => None
                    end
                | _ => None
                end
            | None => None
            end
          else None
      | "" => None
      end
  end.

Definition decode (s : string) : option json :=
  match value (S (String.length s)) s with
  | Some (v, rest) => match skip rest with "" => Some v | _ => None end
  | None => None
  end.

#[export] Instance codec : JsonCodec := {| dumps := encode; loads := decode |}.

End pyjson.

(** The remote node, as a mock endpoint: whether it accepts a websocket
    handshake, and what it answers to a request (status and body over HTTP,
    a text message over a websocket).  A websocket endpoint answers each
    message with one message; an endpoint always answers, so the failures
    of the network itself during a call are outside the model. *)
Record endpoint : Type := {
  accepts : string -> bool;
  on_get : string -> Z * string;
  on_post : string -> string -> Z * string;
  on_message : string -> string
}.

Module requests.

Record Session : Type := { proxies : list (string * string) }.

Record Response : Type := { status_code : Z; text : string }.

(** [requests.session()] *)
Definition session : Session := {| proxies := [] |}.

Definition set_proxies (s : Session) (p : list (string * string)) : Session :=
  {| proxies := p |}.

(** [Response.raise_for_status()]: raises [HTTPError] for a client error
    (4xx) or server error (5xx) status. *)
Definition is_error (status : Z) : bool :=
  (400 <=? status) && (status <? 600).

Definition raise_for_status (r : Response) : IO unit :=
  if is_error (status_code r)
  then raise (HTTPError (status_code r) (text r))
  else ret tt.

Section WithCodec.
Context {codec : JsonCodec}.

(** [Session.get(url, headers=...)] *)
Definition get (s : Session) (node : endpoint) (url : string)
    (headers : headers_t) : IO Response :=
  emit (HttpGet url headers (proxies s)) >>
  let (status, body) := on_get node url in
  ret {| status_code := status; text := body |}.

(** [Session.post(url, json=..., headers=...)]: the body of the request
    is the serialisation of the [json] argument. *)
Definition post (s : Session) (node : endpoint) (url : string)
    (json : dict) (headers : headers_t) : IO Response :=
  let body := dumps (JObj json) in
  emit (HttpPost url headers (proxies s) body) >>
  let (status, reply) := on_post node url body in
  ret {| status_code := status; text := reply |}.

(** [Response.json()] *)
Definition json (r : Response) : IO json :=
  match loads (text r) with
  | Some v => ret v
  | None => raise (JSONDecodeError (text r))
  end.

End WithCodec.

End requests.

Module websocket.

(** A [WebSocket]: whether it is connected. *)
Record WebSocket : Type := { connected : bool }.

(** [websocket.create_connection(url, ...)] *)
Definition create_connection (node : endpoint) (url : string)
    (proxy : option (string * Z * string)) : IO WebSocket :=
  emit (Connect url proxy) >>
  if accepts node url
  then ret {| connected := true |}
  else raise (ConnectionError url).

(** [WebSocket.send(payload)] followed by [WebSocket.recv()]: one text
    frame out, the peer's answer to it in. *)
Definition send (ws : WebSocket) (payload : string) : IO unit :=
  if connected ws
  then emit (WsText payload)
  else raise WebSocketConnectionClosedException.

Definition recv (ws : WebSocket) (node : endpoint) (sent : string) : IO string :=
  if connected ws
  then ret (on_message node sent)
  else raise WebSocketConnectionClosedException.

(** [WebSocket.close()]: does nothing on a socket that is not connected. *)
Definition close (ws : WebSocket) : IO WebSocket :=
  if connected ws
  then emit WsClose >> ret {| connected := false |}
  else ret ws.

End websocket.

(** ** class RPC *)

Record RPC : Type := {
  __mode : string;
  http_api : option requests.Session;
  wss_api : option websocket.WebSocket;
  __url : string;
  __headers : headers_t
}.

Definition getattr {A} (name : string) (field : option A) : IO A :=
  match field with
  | Some a => ret a
  | None => raise (AttributeError ("'RPC' object has no attribute '" ++ name ++ "'"))
  end.

Definition __init__ (node : endpoint) (url : string) (headers : headers_t)
    (tor : bool) : IO RPC :=
  if (slice_to 7 url =? "http://")%string || (slice_to 8 url =? "https://")%string then
    let http_api := requests.session in
    let http_api := requests.set_proxies http_api [] in
    let http_api :=
      if tor
      then requests.set_proxies http_api
             (requests.proxies http_api ++
              [("http", "socks5h://localhost:9050");
               ("https", "socks5h://localhost:9050")])%list
      else http_api in
    ret {| __mode := "requests"; http_api := Some http_api; wss_api := None;
           __url := url; __headers := headers |}
  else if (slice_to 5 url =? "ws://")%string || (slice_to 6 url =? "wss://")%string then
    let! wss_api :=
      (if tor
                then websocket.create_connection node url
                       (Some ("localhost", 9050, "socks5h"))
                else websocket.create_connection node url None) in
    ret {| __mode := "websockets"; http_api := None; wss_api := Some wss_api;
           __url := url; __headers := headers |}
  else
    raise (AttributeError ("Invalid url: " ++ url)).

Section Transport.
Context {codec : JsonCodec}.

Definition _get (node : endpoint) (self : RPC) : IO json :=
  if (__mode self =? "requests")%string then
    let! http_api := getattr "http_api" (http_api self) in
    let! http_response := requests.get http_api node (__url self) (__headers self) in
    requests.raise_for_status http_response >>
    requests.json http_response
  else ret JNull.

Definition _post (node : endpoint) (self : RPC) (data : dict) : IO json :=
  if (__mode self =? "requests")%string then
    let! http_api := getattr "http_api" (http_api self) in
    let! http_response := requests.post http_api node (__url self) data (__headers self) in
    requests.raise_for_status http_response >>
    requests.json http_response
  else if (__mode self =? "websockets")%string then
    let! wss_api := getattr "wss_api" (wss_api self) in
    let payload := dumps (JObj data) in
    websocket.send wss_api payload >>
    let! reply := websocket.recv wss_api node payload in
    match loads reply with
    | Some v => ret v
    | None => raise (JSONDecodeError reply)
    end
  else ret JNull.

(** Close RPC connection. Only necessary for websocket connections. *)
Definition disconnect (self : RPC) : IO RPC :=
  if (__mode self =? "websockets")%string then
    let! wss_api := getattr "wss_api" (wss_api self) in
    let! wss_api := websocket.close wss_api in
    ret {| __mode := __mode self; http_api := http_api self;
           wss_api := Some wss_api; __url := __url self;
           __headers := __headers self |}
  else ret self.

End Transport.

(** ** The methods

    Every method builds [data] and returns [self._post(data)].  The section
    abstracts over what [self._post] does with the payload, so that a method
    can be run against the transport ([_post node self]) or against a spy
    that hands the payload back. *)

Section Methods.
Context {codec : JsonCodec}.
Variable R : Type.
Variable self_post : dict -> R.

(** *** Node RPCs *)

Definition account_balance (account : string) (include_only_confirmed : option bool) : R :=
  let include_only_confirmed := include_only_confirmed ?: true in
  let data := build (
    data["action"] ::= "account_balance" ;;
    data["account"] ::= account ;;
    If (negb include_only_confirmed) then: data["include_only_confirmed"] ::= false) in
  self_post data.

Definition account_block_count (account : string) : R :=
  let data := build (
    data["action"] ::= "account_block_count" ;;
    data["account"] ::= account) in
  self_post data.

Definition account_get (key : string) : R :=
  let data := build (
    data["action"] ::= "account_get" ;;
    data["key"] ::= key) in
  self_post data.

Definition account_history (account : string) (count : option Z) (raw : option bool)
    (head : option string) (offset : option Z) (reverse : option bool)
    (account_filter : option (list string)) : R :=
  let count := count ?: 1 in
  let raw := raw ?: false in
  let head := head ?: "" in
  let offset := offset ?: 0 in
  let reverse := reverse ?: false in
  let data := build (
    data["action"] ::= "account_history" ;;
    data["account"] ::= account ;;
    data["count"] ::= count ;;
    If raw then: data["raw"] ::= true ;;
    If head then: data["head"] ::= head ;;
    If offset then: data["offset"] ::= offset ;;
    If reverse then: data["reverse"] ::= reverse ;;
    If account_filter then: data["account_filter"] ::= account_filter) in
  self_post data.

Definition account_info (account : string) (include_confirmed : option bool)
    (representative : option bool) (weight : option bool) (pending : option bool) : R :=
  let include_confirmed := include_confirmed ?: false in
  let representative := representative ?: false in
  let weight := weight ?: false in
  let pending := pending ?: false in
  let data := build (
    data["action"] ::= "account_info" ;;
    data["account"] ::= account ;;
    If include_confirmed then: data["include_confirmed"] ::= true ;;
    If representative then: data["representative"] ::= true ;;
    If weight then: data["weight"] ::= true ;;
    If pending then: data["pending"] ::= true) in
  self_post data.

Definition account_key (account : string) : R :=
  let data := build (
    data["action"] ::= "account_key" ;;
    data["account"] ::= account) in
  self_post data.

Definition account_representative (account : string) : R :=
  let data := build (
    data["action"] ::= "account_representative" ;;
    data["account"] ::= account) in
  self_post data.

Definition account_weight (account : string) : R :=
  let data := build (
    data["action"] ::= "account_weight" ;;
    data["account"] ::= account) in
  self_post data.

Definition accounts_balances (accounts : list string)
    (include_only_confirmed : option bool) : R :=
  let include_only_confirmed := include_only_confirmed ?: true in
  let data := build (
    data["action"] ::= "accounts_balances" ;;
    data["accounts"] ::= accounts ;;
    If (negb include_only_confirmed) then: data["include_only_confirmed"] ::= false) in
  self_post data.

Definition accounts_frontiers (accounts : list string) : R :=
  let data := build (
    data["action"] ::= "accounts_frontiers" ;;
    data["accounts"] ::= accounts) in
  self_post data.

Definition accounts_receivable (accounts : list string) (count : option Z)
    (threshold : option string) (source : option bool) (include_active : option bool)
    (sorting : option bool) (include_only_confirmed : option bool) : R :=
  let count := count ?: 1 in
  let threshold := threshold ?: "" in
  let source := source ?: false in
  let include_active := include_active ?: false in
  let sorting := sorting ?: false in
  let include_only_confirmed := include_only_confirmed ?: true in
  let data := build (
    data["action"] ::= "accounts_receivable" ;;
    data["accounts"] ::= accounts ;;
    data["count"] ::= count ;;
    If threshold then: data["threshold"] ::= threshold ;;
    If source then: data["source"] ::= true ;;
    If include_active then: data["include_active"] ::= true ;;
    If sorting then: data["sorting"] ::= true ;;
    If (negb include_only_confirmed) then: data["include_only_confirmed"] ::= false) in
  self_post data.

Definition accounts_representatives (accounts : list string) : R :=
  let data := build (
    data["action"] ::= "accounts_representatives" ;;
    data["accounts"] ::= accounts) in
  self_post data.

Definition available_supply : R :=
  let data := build (
    data["action"] ::= "available_supply") in
  self_post data.

Definition block_account (_hash : string) : R :=
  let data := build (
    data["action"] ::= "block_account" ;;
    data["hash"] ::= _hash) in
  self_post data.

Definition block_confirm (_hash : string) : R :=
  let data := build (
    data["action"] ::= "block_confirm" ;;
    data["hash"] ::= _hash) in
  self_post data.

Definition block_count (include_cemented : option bool) : R :=
  let include_cemented := include_cemented ?: true in
  let data := build (
    data["action"] ::= "block_count" ;;
    If (negb include_cemented) then: data["include_cemented"] ::= false) in
  self_post data.

Definition block_create (balance : string) (representative : string)
    (previous : string) (wallet : option string) (account : option string)
    (key : option string) (source : option string) (destination : option string)
    (link : option string) (work : option string) (version : option string)
    (json_block : option bool) (difficulty : option string) : R :=
  let wallet := wallet ?: "" in
  let account := account ?: "" in
  let key := key ?: "" in
  let source := source ?: "" in
  let destination := destination ?: "" in
  let link := link ?: "" in
  let work := work ?: "" in
  let version := version ?: "work_1" in
  let json_block := json_block ?: false in
  let difficulty := difficulty ?: "" in
  let data := build (
    data["action"] ::= "block_create" ;;
    data["type"] ::= "state" ;;
    data["balance"] ::= balance ;;
    If wallet then: data["wallet"] ::= wallet ;;
    If account then: data["account"] ::= account ;;
    If key then: data["key"] ::= key ;;
    If source then: data["source"] ::= source ;;
    If destination then: data["destination"] ::= destination ;;
    If link then: data["link"] ::= link ;;
    data["representative"] ::= representative ;;
    data["previous"] ::= previous ;;
    If work then: data["work"] ::= work
    else:
      (If difficulty then: data["difficulty"] ::= difficulty) ;;
    If (is_in version ["work_1"]) then: data["version"] ::= version ;;
    If json_block then: data["json_block"] ::= true) in
  self_post data.

Definition block_hash (block : list (string * string)) (json_block : option bool) : R :=
  let json_block := json_block ?: false in
  let data := build (
    data["action"] ::= "block_hash" ;;
    data["block"] ::= block ;;
    If json_block then: data["json_block"] ::= true) in
  self_post data.

Definition block_info (_hash : string) (json_block : option bool) : R :=
  let json_block := json_block ?: false in
  let data := build (
    data["action"] ::= "block_info" ;;
    data["hash"] ::= _hash ;;
    If json_block then: data["json_block"] ::= true) in
  self_post data.

Definition blocks (hashes : list string) (json_block : option bool) : R :=
  let json_block := json_block ?: false in
  let data := build (
    data["action"] ::= "blocks" ;;
    data["hashes"] ::= hashes ;;
    If json_block then: data["json_block"] ::= true) in
  self_post data.

Definition blocks_info (hashes : list string) (pending : option bool)
    (source : option bool) (receive_hash : option bool) (json_block : option bool)
    (include_not_found : option bool) : R :=
  let pending := pending ?: false in
  let source := source ?: false in
  let receive_hash := receive_hash ?: false in
  let json_block := json_block ?: false in
  let include_not_found := include_not_found ?: false in
  let data := build (
    data["action"] ::= "blocks_info" ;;
    data["hashes"] ::= hashes ;;
    If pending then: data["pending"] ::= true ;;
    If source then: data["source"] ::= true ;;
    If receive_hash then: data["receive_hash"] ::= true ;;
    If json_block then: data["json_block"] ::= true ;;
    If include_not_found then: data["include_not_found"] ::= true) in
  self_post data.

Definition bootstrap (address : string) (port : string)
    (bypass_frontier_confirmation : option bool) (_id : option string) : R :=
  let bypass_frontier_confirmation := bypass_frontier_confirmation ?: false in
  let _id := _id ?: "" in
  let data := build (
    data["action"] ::= "bootstrap" ;;
    data["address"] ::= address ;;
    data["port"] ::= port ;;
    If _id then: data["id"] ::= _id ;;
    If bypass_frontier_confirmation then: data["bypass_frontier_confirmation"] ::= true) in
  self_post data.

Definition bootstrap_any (force : option bool) (_id : option string)
    (account : option string) : R :=
  let force := force ?: false in
  let _id := _id ?: "" in
  let account := account ?: "" in
  let data := build (
    data["action"] ::= "bootstrap_any" ;;
    If force then: data["force"] ::= true ;;
    If _id then: data["id"] ::= _id ;;
    If account then: data["account"] ::= account) in
  self_post data.

Definition bootstrap_lazy (hash_ : string) (force : option bool)
    (_id : option string) : R :=
  let force := force ?: false in
  let _id := _id ?: "" in
  let data := build (
    data["action"] ::= "bootstrap_lazy" ;;
    data["hash"] ::= hash_ ;;
    If force then: data["force"] ::= true ;;
    If _id then: data["id"] ::= _id) in
  self_post data.

Definition bootstrap_status : R :=
  let data := build (
    data["action"] ::= "bootstrap_status") in
  self_post data.

Definition chain (block : string) (count : option Z) (offset : option Z)
    (reverse : option bool) : R :=
  let count := count ?: 1 in
  let offset := offset ?: 0 in
  let reverse := reverse ?: false in
  let data := build (
    data["action"] ::= "chain" ;;
    data["block"] ::= block ;;
    data["count"] ::= count ;;
    If offset then: data["offset"] ::= offset ;;
    If reverse then: data["reverse"] ::= true) in
  self_post data.

Definition confirmation_active (announcements : option Z) : R :=
  let announcements := announcements ?: 0 in
  let data := build (
    data["action"] ::= "confirmation_active" ;;
    If announcements then: data["announcements"] ::= announcements) in
  self_post data.

Definition confirmation_height_currently_processing : R :=
  let data := build (
    data["action"] ::= "confirmation_height_currently_processing") in
  self_post data.

Definition confirmation_history (_hash : option string) : R :=
  let _hash := _hash ?: "" in
  let data := build (
    data["action"] ::= "confirmation_history" ;;
    If _hash then: data["hash"] ::= _hash) in
  self_post data.

Definition confirmation_info (root : string) (contents : option bool)
    (representatives : option bool) (json_block : option bool) : R :=
  let contents := contents ?: true in
  let representatives := representatives ?: false in
  let json_block := json_block ?: false in
  let data := build (
    data["action"] ::= "confirmation_info" ;;
    data["root"] ::= root ;;
    If (negb contents) then: data["contents"] ::= false ;;
    If representatives then: data["representatives"] ::= true ;;
    If json_block then: data["json_block"] ::= true) in
  self_post data.

Definition confirmation_quorum (peer_details : option bool) : R :=
  let peer_details := peer_details ?: false in
  let data := build (
    data["action"] ::= "confirmation_quorum" ;;
    If peer_details then: data["peer_details"] ::= true) in
  self_post data.

Definition database_txn_tracker (min_read_time : Z) (min_write_time : Z) : R :=
  let data := build (
    data["action"] ::= "database_txn_tracker" ;;
    data["min_read_time"] ::= min_read_time ;;
    data["min_write_time"] ::= min_write_time) in
  self_post data.

Definition delegators (account : string) (threshold : option Z) (count : option Z)
    (start : option string) : R :=
  let threshold := threshold ?: 0 in
  let count := count ?: 0 in
  let start := start ?: "" in
  let data := build (
    data["action"] ::= "delegators" ;;
    data["account"] ::= account ;;
    If threshold then: data["threshold"] ::= threshold ;;
    If count then: data["count"] ::= count ;;
    If start then: data["start"] ::= start) in
  self_post data.

Definition delegators_count (account : string) : R :=
  let data := build (
    data["action"] ::= "delegators_count" ;;
    data["account"] ::= account) in
  self_post data.

Definition deterministic_key (seed : string) (index : Z) : R :=
  let data := build (
    data["action"] ::= "deterministic_key" ;;
    data["seed"] ::= seed ;;
    data["index"] ::= index) in
  self_post data.

Definition election_statistics : R :=
  let data := build (
    data["action"] ::= "election_statistics") in
  self_post data.

Definition epoch_upgrade (epoch : Z) (key : string) (count : option Z)
    (threads : option Z) : R :=
  let count := count ?: 0 in
  let threads := threads ?: 0 in
  let data := build (
    data["action"] ::= "epoch_upgrade" ;;
    data["epoch"] ::= epoch ;;
    data["key"] ::= key ;;
    If count then: data["count"] ::= count ;;
    If threads then: data["threads"] ::= threads) in
  self_post data.

Definition frontier_count : R :=
  let data := build (
    data["action"] ::= "frontier_count") in
  self_post data.

Definition frontiers (account : string) (count : option Z) : R :=
  let count := count ?: 1 in
  let data := build (
    data["action"] ::= "frontiers" ;;
    data["account"] ::= account ;;
    data["count"] ::= count) in
  self_post data.

Definition keepalive (address : string) (port : Z) : R :=
  let data := build (
    data["action"] ::= "keepalive" ;;
    data["address"] ::= address ;;
    data["port"] ::= port) in
  self_post data.

Definition key_create : R :=
  let data := build (
    data["action"] ::= "key_create") in
  self_post data.

Definition key_expand (key : string) : R :=
  let data := build (
    data["action"] ::= "key_expand" ;;
    data["key"] ::= key) in
  self_post data.

Definition ledger (account : string) (count : option Z) (representative : option bool)
    (weight : option bool) (receivable : option bool) (modified_since : option Z)
    (sorting : option bool) (threshold : option Z) : R :=
  let count := count ?: 1 in
  let representative := representative ?: false in
  let weight := weight ?: false in
  let receivable := receivable ?: false in
  let modified_since := modified_since ?: 0 in
  let sorting := sorting ?: false in
  let threshold := threshold ?: 0 in
  let data := build (
    data["action"] ::= "ledger" ;;
    data["account"] ::= account ;;
    data["count"] ::= count ;;
    If representative then: data["representative"] ::= true ;;
    If weight then: data["weight"] ::= true ;;
    If receivable then: data["receivable"] ::= true ;;
    If modified_since then: data["modified_since"] ::= modified_since ;;
    If sorting then: data["sorting"] ::= true ;;
    If threshold then: data["threshold"] ::= threshold) in
  self_post data.

Definition node_id : R :=
  let data := build (
    data["action"] ::= "node_id") in
  self_post data.

Definition node_id_delete : R :=
  let data := build (
    data["action"] ::= "node_id_delete") in
  self_post data.

Definition peers (peer_details : option bool) : R :=
  let peer_details := peer_details ?: false in
  let data := build (
    data["action"] ::= "peers" ;;
    If peer_details then: data["peer_details"] ::= true) in
  self_post data.

Definition populate_backlog : R :=
  let data := build (
    data["action"] ::= "populate_backlog") in
  self_post data.

Definition process (block : str_or_dict) (force : option bool)
    (subtype : option string) (json_block : option bool) (watch_work : option bool)
    (_async : option bool) : R :=
  let force := force ?: false in
  let subtype := subtype ?: "" in
  let json_block := json_block ?: false in
  let watch_work := watch_work ?: true in
  let _async := _async ?: false in
  let data := build (
    data["action"] ::= "process" ;;
    data["block"] ::= block ;;
    If force then: data["force"] ::= true ;;
    If subtype then: data["subtype"] ::= subtype ;;
    If json_block then: data["json_block"] ::= true ;;
    If (negb watch_work) then: data["watch_work"] ::= false ;;
    If _async then: data["async"] ::= true) in
  self_post data.

Definition receivable (account : string) (count : option Z) (threshold : option Z)
    (source : option bool) (include_active : option bool) (min_version : option bool)
    (sorting : option bool) (include_only_confirmed : option bool) : R :=
  let count := count ?: 0 in
  let threshold := threshold ?: 0 in
  let source := source ?: false in
  let include_active := include_active ?: false in
  let min_version := min_version ?: false in
  let sorting := sorting ?: false in
  let include_only_confirmed := include_only_confirmed ?: true in
  let data := build (
    data["action"] ::= "receivable" ;;
    data["account"] ::= account ;;
    If count then: data["count"] ::= count ;;
    If threshold then: data["threshold"] ::= threshold ;;
    If source then: data["source"] ::= true ;;
    If include_active then: data["include_active"] ::= true ;;
    If min_version then: data["min_version"] ::= true ;;
    If sorting then: data["sorting"] ::= true ;;
    If (negb include_only_confirmed) then: data["include_only_confirmed"] ::= false) in
  self_post data.

Definition receivable_exists (_hash : string) (include_active : option bool)
    (include_only_confirmed : option bool) : R :=
  let include_active := include_active ?: false in
  let include_only_confirmed := include_only_confirmed ?: true in
  let data := build (
    data["action"] ::= "receivable_exists" ;;
    data["hash"] ::= _hash ;;
    If include_active then: data["include_active"] ::= true ;;
    If (negb include_only_confirmed) then: data["include_only_confirmed"] ::= false) in
  self_post data.

Definition representatives (count : option Z) (sorting : option bool) : R :=
  let count := count ?: 1 in
  let sorting := sorting ?: false in
  let data := build (
    data["action"] ::= "representatives" ;;
    data["count"] ::= count ;;
    If sorting then: data["sorting"] ::= true) in
  self_post data.

Definition representatives_online (weight : option bool)
    (accounts : option (list string)) : R :=
  let weight := weight ?: false in
  let data := build (
    data["action"] ::= "representatives_online" ;;
    If weight then: data["weight"] ::= true ;;
    If accounts then: data["accounts"] ::= accounts) in
  self_post data.

Definition republish (_hash : string) (count : option Z) (sources : option Z)
    (destinations : option Z) : R :=
  let count := count ?: 1 in
  let sources := sources ?: 0 in
  let destinations := destinations ?: 0 in
  let data := build (
    data["action"] ::= "republish" ;;
    data["hash"] ::= _hash ;;
    If sources then:
      (data["sources"] ::= sources ;;
       data["count"] ::= count) ;;
    If destinations then:
      (data["destinations"] ::= destinations ;;
       data["count"] ::= count)) in
  self_post data.

Definition sign (key : option string) (wallet : option string)
    (account : option string) (block : option str_or_dict) (_hash : option string)
    (json_block : option bool) : R :=
  let key := key ?: "" in
  let wallet := wallet ?: "" in
  let account := account ?: "" in
  let block := block ?: (Str "") in
  let _hash := _hash ?: "" in
  let json_block := json_block ?: false in
  let data := build (
    data["action"] ::= "sign" ;;
    If key then: data["key"] ::= key ;;
    If wallet then: data["wallet"] ::= wallet ;;
    If account then: data["account"] ::= account ;;
    If (isinstance_str block) then: data["block"] ::= block
    else: data["block"] ::= (dumps (to_json block)) ;;
    If _hash then: data["_hash"] ::= _hash ;;
    If json_block then: data["json_block"] ::= true) in
  self_post data.

Definition stats (_type : string) : R :=
  let data := build (
    data["action"] ::= "stats" ;;
    data["type"] ::= _type) in
  self_post data.

Definition stats_clear : R :=
  let data := build (
    data["action"] ::= "stats_clear") in
  self_post data.

Definition stop : R :=
  let data := build (
    data["action"] ::= "stop") in
  self_post data.

Definition successors (block : string) (count : option Z) (offset : option Z)
    (reverse : option bool) : R :=
  let count := count ?: 1 in
  let offset := offset ?: 0 in
  let reverse := reverse ?: false in
  let data := build (
    data["action"] ::= "successors" ;;
    data["block"] ::= block ;;
    data["count"] ::= count ;;
    If offset then: data["offset"] ::= offset ;;
    If reverse then: data["reverse"] ::= true) in
  self_post data.

Definition telemetry (raw : option bool) (address : option Z) (port : option Z) : R :=
  let raw := raw ?: false in
  let address := address ?: 0 in
  let port := port ?: 7075 in
  let data := build (
    data["action"] ::= "telemetry" ;;
    If raw then: data["raw"] ::= true ;;
    If address then:
      (data["address"] ::= address ;;
       data["port"] ::= port)) in
  self_post data.

Definition validate_account_number (account : string) : R :=
  let data := build (
    data["action"] ::= "validate_account_number" ;;
    data["account"] ::= account) in
  self_post data.

Definition version : R :=
  let data := build (
    data["action"] ::= "version") in
  self_post data.

Definition unchecked (json_block : option bool) (count : option Z) : R :=
  let json_block := json_block ?: false in
  let count := count ?: 1 in
  let data := build (
    data["action"] ::= "unchecked" ;;
    If json_block then: data["json_block"] ::= true ;;
    data["count"] ::= count) in
  self_post data.

Definition unchecked_clear : R :=
  let data := build (
    data["action"] ::= "unchecked_clear") in
  self_post data.

Definition unchecked_get (_hash : string) (json_block : option bool) : R :=
  let json_block := json_block ?: false in
  let data := build (
    data["action"] ::= "unchecked_get" ;;
    data["hash"] ::= _hash ;;
    If json_block then: data["json_block"] ::= true) in
  self_post data.

Definition unchecked_keys (key : string) (count : option Z)
    (json_block : option bool) : R :=
  let count := count ?: 1 in
  let json_block := json_block ?: false in
  let data := build (
    data["action"] ::= "unchecked_keys" ;;
    data["key"] ::= key ;;
    data["count"] ::= count ;;
    If json_block then: data["json_block"] ::= true) in
  self_post data.

Definition unopened (account : option string) (count : option Z)
    (threshold : option Z) : R :=
  let account := account ?: "" in
  let count := count ?: 1 in
  let threshold := threshold ?: 0 in
  let data := build (
    data["action"] ::= "unopened" ;;
    If account then: data["account"] ::= account ;;
    If count then: data["count"] ::= count ;;
    If threshold then: data["threshold"] ::= threshold) in
  self_post data.

Definition uptime : R :=
  let data := build (
    data["action"] ::= "uptime") in
  self_post data.

Definition work_cancel (_hash : string) : R :=
  let data := build (
    data["action"] ::= "work_cancel" ;;
    data["hash"] ::= _hash) in
  self_post data.

Definition work_generate (_hash : string) (use_peers : option bool)
    (difficulty : option string) (multiplier : option Z) (account : option string)
    (version : option string) (block : option string) (json_block : option bool) : R :=
  let use_peers := use_peers ?: false in
  let difficulty := difficulty ?: "" in
  let multiplier := multiplier ?: 0 in
  let account := account ?: "" in
  let version := version ?: "work_1" in
  let block := block ?: "" in
  let json_block := json_block ?: false in
  let data := build (
    data["action"] ::= "work_generate" ;;
    data["hash"] ::= _hash ;;
    If use_peers then: data["use_peers"] ::= true ;;
    If multiplier then: data["multiplier"] ::= multiplier
    else:
      (If difficulty then: data["difficulty"] ::= difficulty) ;;
    If account then: data["account"] ::= account ;;
    If (is_in version ["work_1"]) then: data["version"] ::= version ;;
    If block then:
      (data["block"] ::= block ;;
       If json_block then: data["json_block"] ::= json_block)) in
  self_post data.

Definition work_peer_add (address : string) (port : Z) : R :=
  let data := build (
    data["action"] ::= "work_peer_add" ;;
    data["address"] ::= address ;;
    data["port"] ::= port) in
  self_post data.

Definition work_peers : R :=
  let data := build (
    data["action"] ::= "work_peers") in
  self_post data.

Definition work_peers_clear : R :=
  let data := build (
    data["action"] ::= "work_peers_clear") in
  self_post data.

Definition work_validate (work : string) (_hash : string) (difficulty : option string)
    (multiplier : option Z) (version : option string) : R :=
  let difficulty := difficulty ?: "" in
  let multiplier := multiplier ?: 0 in
  let version := version ?: "work_1" in
  let data := build (
    data["action"] ::= "work_validate" ;;
    data["work"] ::= work ;;
    data["hash"] ::= _hash ;;
    If multiplier then: data["multiplier"] ::= multiplier
    else:
      (If difficulty then: data["difficulty"] ::= difficulty) ;;
    If (is_in version ["work_1"]) then: data["version"] ::= version) in
  self_post data.

(** *** Wallet RPCs *)

Definition account_create (wallet : string) (index : option Z) (work : option bool) : R :=
  let index := index ?: 0 in
  let work := work ?: true in
  let data := build (
    data["action"] ::= "account_create" ;;
    data["wallet"] ::= wallet ;;
    If index then: data["index"] ::= index ;;
    If (negb work) then: data["work"] ::= false) in
  self_post data.

Definition account_list (wallet : string) : R :=
  let data := build (
    data["action"] ::= "account_list" ;;
    data["wallet"] ::= wallet) in
  self_post data.

Definition account_move (wallet : string) (source : string) (accounts : list string) : R :=
  let data := build (
    data["action"] ::= "account_move" ;;
    data["wallet"] ::= wallet ;;
    data["source"] ::= source ;;
    data["accounts"] ::= accounts) in
  self_post data.

Definition account_remove (wallet : string) (account : string) : R :=
  let data := build (
    data["action"] ::= "account_remove" ;;
    data["wallet"] ::= wallet ;;
    data["account"] ::= account) in
  self_post data.

Definition account_representative_set (wallet : string) (account : string)
    (representative : string) (work : option string) : R :=
  let work := work ?: "" in
  let data := build (
    data["action"] ::= "account_representative_set" ;;
    data["wallet"] ::= wallet ;;
    data["account"] ::= account ;;
    data["representative"] ::= representative ;;
    If work then: data["work"] ::= work) in
  self_post data.

Definition accounts_create (wallet : string) (count : option Z) (work : option bool) : R :=
  let count := count ?: 1 in
  let work := work ?: true in
  let data := build (
    data["action"] ::= "accounts_create" ;;
    data["wallet"] ::= wallet ;;
    data["count"] ::= count ;;
    If (negb work) then: data["work"] ::= false) in
  self_post data.

Definition password_change (wallet : string) (password : string) : R :=
  let data := build (
    data["action"] ::= "password_change" ;;
    data["wallet"] ::= wallet ;;
    data["password"] ::= password) in
  self_post data.

Definition password_enter (wallet : string) (password : string) : R :=
  let data := build (
    data["action"] ::= "password_enter" ;;
    data["wallet"] ::= wallet ;;
    data["password"] ::= password) in
  self_post data.

Definition password_valid (wallet : string) : R :=
  let data := build (
    data["action"] ::= "password_valid" ;;
    data["wallet"] ::= wallet) in
  self_post data.

Definition receive (wallet : string) (account : string) (block : string)
    (work : option string) : R :=
  let work := work ?: "" in
  let data := build (
    data["action"] ::= "receive" ;;
    data["wallet"] ::= wallet ;;
    data["account"] ::= account ;;
    data["block"] ::= block ;;
    If work then: data["work"] ::= work) in
  self_post data.

Definition receive_minimum : R :=
  let data := build (
    data["action"] ::= "receive_minimum") in
  self_post data.

Definition receive_minimum_set (amount : string) : R :=
  let data := build (
    data["action"] ::= "receive_minimum_set" ;;
    data["amount"] ::= amount) in
  self_post data.

Definition search_receivable (wallet : string) : R :=
  let data := build (
    data["action"] ::= "search_receivable" ;;
    data["wallet"] ::= wallet) in
  self_post data.

Definition search_receivable_all : R :=
  let data := build (
    data["action"] ::= "search_receivable_all") in
  self_post data.

Definition send (wallet : string) (source : string) (destination : string)
    (amount : string) (_id : option string) (work : option string) : R :=
  let _id := _id ?: "" in
  let work := work ?: "" in
  let data := build (
    data["action"] ::= "send" ;;
    data["wallet"] ::= wallet ;;
    data["source"] ::= source ;;
    data["destination"] ::= destination ;;
    data["amount"] ::= amount ;;
    If _id then: data["id"] ::= _id ;;
    If work then: data["work"] ::= work) in
  self_post data.

Definition wallet_add (wallet : string) (key : string) (work : option bool) : R :=
  let work := work ?: false in
  let data := build (
    data["action"] ::= "wallet_add" ;;
    data["wallet"] ::= wallet ;;
    data["key"] ::= key ;;
    If work then: data["work"] ::= true) in
  self_post data.

Definition wallet_add_watch (wallet : string) (accounts : list string) : R :=
  let data := build (
    data["action"] ::= "wallet_add_watch" ;;
    data["wallet"] ::= wallet ;;
    data["accounts"] ::= accounts) in
  self_post data.

Definition wallet_balances (wallet : string) (threshold : option Z) : R :=
  let threshold := threshold ?: 0 in
  let data := build (
    data["action"] ::= "wallet_balances" ;;
    data["wallet"] ::= wallet ;;
    If threshold then: data["threshold"] ::= threshold) in
  self_post data.

Definition wallet_change_seed (wallet : string) (seed : string) (count : option Z) : R :=
  let count := count ?: 0 in
  let data := build (
    data["action"] ::= "wallet_change_seed" ;;
    data["wallet"] ::= wallet ;;
    data["seed"] ::= seed ;;
    If count then: data["count"] ::= count) in
  self_post data.

Definition wallet_contains (wallet : string) (account : string) : R :=
  let data := build (
    data["action"] ::= "wallet_contains" ;;
    data["wallet"] ::= wallet ;;
    data["account"] ::= account) in
  self_post data.

Definition wallet_create (seed : option string) : R :=
  let seed := seed ?: "" in
  let data := build (
    data["action"] ::= "wallet_create" ;;
    If seed then: data["seed"] ::= seed) in
  self_post data.

Definition wallet_destroy (wallet : string) : R :=
  let data := build (
    data["action"] ::= "wallet_destroy" ;;
    data["wallet"] ::= wallet) in
  self_post data.

Definition wallet_export (wallet : string) : R :=
  let data := build (
    data["action"] ::= "wallet_export" ;;
    data["wallet"] ::= wallet) in
  self_post data.

Definition wallet_frontiers (wallet : string) : R :=
  let data := build (
    data["action"] ::= "wallet_frontiers" ;;
    data["wallet"] ::= wallet) in
  self_post data.

Definition wallet_history (wallet : string) (modified_since : option Z) : R :=
  let modified_since := modified_since ?: 0 in
  let data := build (
    data["action"] ::= "wallet_history" ;;
    data["wallet"] ::= wallet ;;
    If modified_since then: data["modified_since"] ::= modified_since) in
  self_post data.

Definition wallet_info (wallet : string) : R :=
  let data := build (
    data["action"] ::= "wallet_info" ;;
    data["wallet"] ::= wallet) in
  self_post data.

Definition wallet_ledger (wallet : string) (representative : option bool)
    (weight : option bool) (receivable : option bool)
    (modified_since : option string) : R :=
  let representative := representative ?: false in
  let weight := weight ?: false in
  let receivable := receivable ?: false in
  let modified_since := modified_since ?: "" in
  let data := build (
    data["action"] ::= "wallet_ledger" ;;
    data["wallet"] ::= wallet ;;
    If representative then: data["representative"] ::= true ;;
    If weight then: data["weight"] ::= true ;;
    If receivable then: data["receivable"] ::= true ;;
    If modified_since then: data["modified_since"] ::= modified_since) in
  self_post data.

Definition wallet_lock (wallet : string) : R :=
  let data := build (
    data["action"] ::= "wallet_lock" ;;
    data["wallet"] ::= wallet) in
  self_post data.

Definition wallet_locked (wallet : string) : R :=
  let data := build (
    data["action"] ::= "wallet_locked" ;;
    data["wallet"] ::= wallet) in
  self_post data.

Definition wallet_receivable (wallet : string) (count : option Z)
    (threshold : option Z) (source : option bool) (include_active : option bool)
    (min_version : option bool) (include_only_confirmed : option bool) : R :=
  let count := count ?: 1 in
  let threshold := threshold ?: 0 in
  let source := source ?: false in
  let include_active := include_active ?: false in
  let min_version := min_version ?: false in
  let include_only_confirmed := include_only_confirmed ?: true in
  let data := build (
    data["action"] ::= "wallet_receivable" ;;
    data["wallet"] ::= wallet ;;
    data["count"] ::= count ;;
    If threshold then: data["threshold"] ::= threshold ;;
    If source then: data["source"] ::= true ;;
    If include_active then: data["include_active"] ::= true ;;
    If min_version then: data["min_version"] ::= true ;;
    If (negb include_only_confirmed) then: data["include_only_confirmed"] ::= false) in
  self_post data.

Definition wallet_representative (wallet : string) : R :=
  let data := build (
    data["action"] ::= "wallet_representative" ;;
    data["wallet"] ::= wallet) in
  self_post data.

Definition wallet_representative_set (wallet : string) (representative : string)
    (update_existing_accounts : option bool) : R :=
  let update_existing_accounts := update_existing_accounts ?: false in
  let data := build (
    data["action"] ::= "wallet_representative_set" ;;
    data["wallet"] ::= wallet ;;
    data["representative"] ::= representative ;;
    If update_existing_accounts then: data["update_existing_accounts"] ::= true) in
  self_post data.

Definition wallet_republish (wallet : string) (count : option Z) : R :=
  let count := count ?: 1 in
  let data := build (
    data["action"] ::= "wallet_republish" ;;
    data["wallet"] ::= wallet ;;
    data["count"] ::= count) in
  self_post data.

Definition wallet_work_get (wallet : string) : R :=
  let data := build (
    data["action"] ::= "wallet_work_get" ;;
    data["wallet"] ::= wallet) in
  self_post data.

Definition work_get (wallet : string) (account : string) : R :=
  let data := build (
    data["action"] ::= "work_get" ;;
    data["wallet"] ::= wallet ;;
    data["account"] ::= account) in
  self_post data.

Definition work_set (wallet : string) (account : string) (work : string) : R :=
  let data := build (
    data["action"] ::= "work_set" ;;
    data["wallet"] ::= wallet ;;
    data["account"] ::= account ;;
    data["work"] ::= work) in
  self_post data.

(** *** Unit conversion RPCs *)

Definition nano_to_raw (amount : string) : R :=
  let data := build (
    data["action"] ::= "nano_to_raw" ;;
    data["amount"] ::= amount) in
  self_post data.

Definition raw_to_nano (amount : string) : R :=
  let data := build (
    data["action"] ::= "raw_to_nano" ;;
    data["amount"] ::= amount) in
  self_post data.

End Methods.

(** ** Calls

    One constructor per method, carrying the arguments of a call; an
    argument that has a default is [None] when the caller leaves it out. *)

Inductive call : Type :=
| call_account_balance (account : string) (include_only_confirmed : option bool)
| call_account_block_count (account : string)
| call_account_get (key : string)
| call_account_history (account : string) (count : option Z) (raw : option bool)
    (head : option string) (offset : option Z) (reverse : option bool)
    (account_filter : option (list string))
| call_account_info (account : string) (include_confirmed : option bool)
    (representative : option bool) (weight : option bool) (pending : option bool)
| call_account_key (account : string)
| call_account_representative (account : string)
| call_account_weight (account : string)
| call_accounts_balances (accounts : list string) (include_only_confirmed : option bool)
| call_accounts_frontiers (accounts : list string)
| call_accounts_receivable (accounts : list string) (count : option Z)
    (threshold : option string) (source : option bool) (include_active : option bool)
    (sorting : option bool) (include_only_confirmed : option bool)
| call_accounts_representatives (accounts : list string)
| call_available_supply
| call_block_account (_hash : string)
| call_block_confirm (_hash : string)
| call_block_count (include_cemented : option bool)
| call_block_create (balance : string) (representative : string) (previous : string)
    (wallet : option string) (account : option string) (key : option string)
    (source : option string) (destination : option string) (link : option string)
    (work : option string) (version : option string) (json_block : option bool)
    (difficulty : option string)
| call_block_hash (block : list (string * string)) (json_block : option bool)
| call_block_info (_hash : string) (json_block : option bool)
| call_blocks (hashes : list string) (json_block : option bool)
| call_blocks_info (hashes : list string) (pending : option bool) (source : option bool)
    (receive_hash : option bool) (json_block : option bool)
    (include_not_found : option bool)
| call_bootstrap (address : string) (port : string)
    (bypass_frontier_confirmation : option bool) (_id : option string)
| call_bootstrap_any (force : option bool) (_id : option string)
    (account : option string)
| call_bootstrap_lazy (hash_ : string) (force : option bool) (_id : option string)
| call_bootstrap_status
| call_chain (block : string) (count : option Z) (offset : option Z)
    (reverse : option bool)
| call_confirmation_active (announcements : option Z)
| call_confirmation_height_currently_processing
| call_confirmation_history (_hash : option string)
| call_confirmation_info (root : string) (contents : option bool)
    (representatives : option bool) (json_block : option bool)
| call_confirmation_quorum (peer_details : option bool)
| call_database_txn_tracker (min_read_time : Z) (min_write_time : Z)
| call_delegators (account : string) (threshold : option Z) (count : option Z)
    (start : option string)
| call_delegators_count (account : string)
| call_deterministic_key (seed : string) (index : Z)
| call_election_statistics
| call_epoch_upgrade (epoch : Z) (key : string) (count : option Z) (threads : option Z)
| call_frontier_count
| call_frontiers (account : string) (count : option Z)
| call_keepalive (address : string) (port : Z)
| call_key_create
| call_key_expand (key : string)
| call_ledger (account : string) (count : option Z) (representative : option bool)
    (weight : option bool) (receivable : option bool) (modified_since : option Z)
    (sorting : option bool) (threshold : option Z)
| call_node_id
| call_node_id_delete
| call_peers (peer_details : option bool)
| call_populate_backlog
| call_process (block : str_or_dict) (force : option bool) (subtype : option string)
    (json_block : option bool) (watch_work : option bool) (_async : option bool)
| call_receivable (account : string) (count : option Z) (threshold : option Z)
    (source : option bool) (include_active : option bool) (min_version : option bool)
    (sorting : option bool) (include_only_confirmed : option bool)
| call_receivable_exists (_hash : string) (include_active : option bool)
    (include_only_confirmed : option bool)
| call_representatives (count : option Z) (sorting : option bool)
| call_representatives_online (weight : option bool) (accounts : option (list string))
| call_republish (_hash : string) (count : option Z) (sources : option Z)
    (destinations : option Z)
| call_sign (key : option string) (wallet : option string) (account : option string)
    (block : option str_or_dict) (_hash : option string) (json_block : option bool)
| call_stats (_type : string)
| call_stats_clear
| call_stop
| call_successors (block : string) (count : option Z) (offset : option Z)
    (reverse : option bool)
| call_telemetry (raw : option bool) (address : option Z) (port : option Z)
| call_validate_account_number (account : string)
| call_version
| call_unchecked (json_block : option bool) (count : option Z)
| call_unchecked_clear
| call_unchecked_get (_hash : string) (json_block : option bool)
| call_unchecked_keys (key : string) (count : option Z) (json_block : option bool)
| call_unopened (account : option string) (count : option Z) (threshold : option Z)
| call_uptime
| call_work_cancel (_hash : string)
| call_work_generate (_hash : string) (use_peers : option bool)
    (difficulty : option string) (multiplier : option Z) (account : option string)
    (version : option string) (block : option string) (json_block : option bool)
| call_work_peer_add (address : string) (port : Z)
| call_work_peers
| call_work_peers_clear
| call_work_validate (work : string) (_hash : string) (difficulty : option string)
    (multiplier : option Z) (version : option string)
| call_account_create (wallet : string) (index : option Z) (work : option bool)
| call_account_list (wallet : string)
| call_account_move (wallet : string) (source : string) (accounts : list string)
| call_account_remove (wallet : string) (account : string)
| call_account_representative_set (wallet : string) (account : string)
    (representative : string) (work : option string)
| call_accounts_create (wallet : string) (count : option Z) (work : option bool)
| call_password_change (wallet : string) (password : string)
| call_password_enter (wallet : string) (password : string)
| call_password_valid (wallet : string)
| call_receive (wallet : string) (account : string) (block : string)
    (work : option string)
| call_receive_minimum
| call_receive_minimum_set (amount : string)
| call_search_receivable (wallet : string)
| call_search_receivable_all
| call_send (wallet : string) (source : string) (destination : string) (amount : string)
    (_id : option string) (work : option string)
| call_wallet_add (wallet : string) (key : string) (work : option bool)
| call_wallet_add_watch (wallet : string) (accounts : list string)
| call_wallet_balances (wallet : string) (threshold : option Z)
| call_wallet_change_seed (wallet : string) (seed : string) (count : option Z)
| call_wallet_contains (wallet : string) (account : string)
| call_wallet_create (seed : option string)
| call_wallet_destroy (wallet : string)
| call_wallet_export (wallet : string)
| call_wallet_frontiers (wallet : string)
| call_wallet_history (wallet : string) (modified_since : option Z)
| call_wallet_info (wallet : string)
| call_wallet_ledger (wallet : string) (representative : option bool)
    (weight : option bool) (receivable : option bool) (modified_since : option string)
| call_wallet_lock (wallet : string)
| call_wallet_locked (wallet : string)
| call_wallet_receivable (wallet : string) (count : option Z) (threshold : option Z)
    (source : option bool) (include_active : option bool) (min_version : option bool)
    (include_only_confirmed : option bool)
| call_wallet_representative (wallet : string)
| call_wallet_representative_set (wallet : string) (representative : string)
    (update_existing_accounts : option bool)
| call_wallet_republish (wallet : string) (count : option Z)
| call_wallet_work_get (wallet : string)
| call_work_get (wallet : string) (account : string)
| call_work_set (wallet : string) (account : string) (work : string)
| call_nano_to_raw (amount : string)
| call_raw_to_nano (amount : string).

(** A [self._post] that hands the payload back instead of sending it. *)
Definition spy : dict -> dict := fun data => data.

Section Calls.
Context {codec : JsonCodec}.

(** The method a call invokes, with [self._post] given by [post]. *)
Definition invoke {R : Type} (post : dict -> R) (c : call) : R :=
  match c with
  | call_account_balance account include_only_confirmed =>
      account_balance post account include_only_confirmed
  | call_account_block_count account => account_block_count post account
  | call_account_get key => account_get post key
  | call_account_history account count raw head offset reverse account_filter =>
      account_history post account count raw head offset reverse account_filter
  | call_account_info account include_confirmed representative weight pending =>
      account_info post account include_confirmed representative weight pending
  | call_account_key account => account_key post account
  | call_account_representative account => account_representative post account
  | call_account_weight account => account_weight post account
  | call_accounts_balances accounts include_only_confirmed =>
      accounts_balances post accounts include_only_confirmed
  | call_accounts_frontiers accounts => accounts_frontiers post accounts
  | call_accounts_receivable accounts count threshold source include_active sorting
      include_only_confirmed =>
      accounts_receivable post accounts count threshold source include_active sorting
          include_only_confirmed
  | call_accounts_representatives accounts => accounts_representatives post accounts
  | call_available_supply => available_supply post
  | call_block_account _hash => block_account post _hash
  | call_block_confirm _hash => block_confirm post _hash
  | call_block_count include_cemented => block_count post include_cemented
  | call_block_create balance representative previous wallet account key source
      destination link work version json_block difficulty =>
      block_create post balance representative previous wallet account key source
          destination link work version json_block difficulty
  | call_block_hash block json_block => block_hash post block json_block
  | call_block_info _hash json_block => block_info post _hash json_block
  | call_blocks hashes json_block => blocks post hashes json_block
  | call_blocks_info hashes pending source receive_hash json_block include_not_found =>
      blocks_info post hashes pending source receive_hash json_block include_not_found
  | call_bootstrap address port bypass_frontier_confirmation _id =>
      bootstrap post address port bypass_frontier_confirmation _id
  | call_bootstrap_any force _id account => bootstrap_any post force _id account
  | call_bootstrap_lazy hash_ force _id => bootstrap_lazy post hash_ force _id
  | call_bootstrap_status => bootstrap_status post
  | call_chain block count offset reverse => chain post block count offset reverse
  | call_confirmation_active announcements => confirmation_active post announcements
  | call_confirmation_height_currently_processing =>
      confirmation_height_currently_processing post
  | call_confirmation_history _hash => confirmation_history post _hash
  | call_confirmation_info root contents representatives json_block =>
      confirmation_info post root contents representatives json_block
  | call_confirmation_quorum peer_details => confirmation_quorum post peer_details
  | call_database_txn_tracker min_read_time min_write_time =>
      database_txn_tracker post min_read_time min_write_time
  | call_delegators account threshold count start =>
      delegators post account threshold count start
  | call_delegators_count account => delegators_count post account
  | call_deterministic_key seed index => deterministic_key post seed index
  | call_election_statistics => election_statistics post
  | call_epoch_upgrade epoch key count threads =>
      epoch_upgrade post epoch key count threads
  | call_frontier_count => frontier_count post
  | call_frontiers account count => frontiers post account count
  | call_keepalive address port => keepalive post address port
  | call_key_create => key_create post
  | call_key_expand key => key_expand post key
  | call_ledger account count representative weight receivable modified_since sorting
      threshold =>
      ledger post account count representative weight receivable modified_since sorting
          threshold
  | call_node_id => node_id post
  | call_node_id_delete => node_id_delete post
  | call_peers peer_details => peers post peer_details
  | call_populate_backlog => populate_backlog post
  | call_process block force subtype json_block watch_work _async =>
      process post block force subtype json_block watch_work _async
  | call_receivable account count threshold source include_active min_version sorting
      include_only_confirmed =>
      receivable post account count threshold source include_active min_version sorting
          include_only_confirmed
  | call_receivable_exists _hash include_active include_only_confirmed =>
      receivable_exists post _hash include_active include_only_confirmed
  | call_representatives count sorting => representatives post count sorting
  | call_representatives_online weight accounts =>
      representatives_online post weight accounts
  | call_republish _hash count sources destinations =>
      republish post _hash count sources destinations
  | call_sign key wallet account block _hash json_block =>
      sign post key wallet account block _hash json_block
  | call_stats _type => stats post _type
  | call_stats_clear => stats_clear post
  | call_stop => stop post
  | call_successors block count offset reverse =>
      successors post block count offset reverse
  | call_telemetry raw address port => telemetry post raw address port
  | call_validate_account_number account => validate_account_number post account
  | call_version => version post
  | call_unchecked json_block count => unchecked post json_block count
  | call_unchecked_clear => unchecked_clear post
  | call_unchecked_get _hash json_block => unchecked_get post _hash json_block
  | call_unchecked_keys key count json_block => unchecked_keys post key count json_block
  | call_unopened account count threshold => unopened post account count threshold
  | call_uptime => uptime post
  | call_work_cancel _hash => work_cancel post _hash
  | call_work_generate _hash use_peers difficulty multiplier account version block
      json_block =>
      work_generate post _hash use_peers difficulty multiplier account version block
          json_block
  | call_work_peer_add address port => work_peer_add post address port
  | call_work_peers => work_peers post
  | call_work_peers_clear => work_peers_clear post
  | call_work_validate work _hash difficulty multiplier version =>
      work_validate post work _hash difficulty multiplier version
  | call_account_create wallet index work => account_create post wallet index work
  | call_account_list wallet => account_list post wallet
  | call_account_move wallet source accounts => account_move post wallet source accounts
  | call_account_remove wallet account => account_remove post wallet account
  | call_account_representative_set wallet account representative work =>
      account_representative_set post wallet account representative work
  | call_accounts_create wallet count work => accounts_create post wallet count work
  | call_password_change wallet password => password_change post wallet password
  | call_password_enter wallet password => password_enter post wallet password
  | call_password_valid wallet => password_valid post wallet
  | call_receive wallet account block work => receive post wallet account block work
  | call_receive_minimum => receive_minimum post
  | call_receive_minimum_set amount => receive_minimum_set post amount
  | call_search_receivable wallet => search_receivable post wallet
  | call_search_receivable_all => search_receivable_all post
  | call_send wallet source destination amount _id work =>
      send post wallet source destination amount _id work
  | call_wallet_add wallet key work => wallet_add post wallet key work
  | call_wallet_add_watch wallet accounts => wallet_add_watch post wallet accounts
  | call_wallet_balances wallet threshold => wallet_balances post wallet threshold
  | call_wallet_change_seed wallet seed count =>
      wallet_change_seed post wallet seed count
  | call_wallet_contains wallet account => wallet_contains post wallet account
  | call_wallet_create seed => wallet_create post seed
  | call_wallet_destroy wallet => wallet_destroy post wallet
  | call_wallet_export wallet => wallet_export post wallet
  | call_wallet_frontiers wallet => wallet_frontiers post wallet
  | call_wallet_history wallet modified_since =>
      wallet_history post wallet modified_since
  | call_wallet_info wallet => wallet_info post wallet
  | call_wallet_ledger wallet representative weight receivable modified_since =>
      wallet_ledger post wallet representative weight receivable modified_since
  | call_wallet_lock wallet => wallet_lock post wallet
  | call_wallet_locked wallet => wallet_locked post wallet
  | call_wallet_receivable wallet count threshold source include_active min_version
      include_only_confirmed =>
      wallet_receivable post wallet count threshold source include_active min_version
          include_only_confirmed
  | call_wallet_representative wallet => wallet_representative post wallet
  | call_wallet_representative_set wallet representative update_existing_accounts =>
      wallet_representative_set post wallet representative update_existing_accounts
  | call_wallet_republish wallet count => wallet_republish post wallet count
  | call_wallet_work_get wallet => wallet_work_get post wallet
  | call_work_get wallet account => work_get post wallet account
  | call_work_set wallet account work => work_set post wallet account work
  | call_nano_to_raw amount => nano_to_raw post amount
  | call_raw_to_nano amount => raw_to_nano post amount
  end.

(** The payload a call builds: what it hands to [self._post]. *)
Definition payload (c : call) : dict := invoke spy c.

End Calls.

(** The name of the method. *)
Definition method (c : call) : string :=
  match c with
  | call_account_balance _ _ => "account_balance"
  | call_account_block_count _ => "account_block_count"
  | call_account_get _ => "account_get"
  | call_account_history _ _ _ _ _ _ _ => "account_history"
  | call_account_info _ _ _ _ _ => "account_info"
  | call_account_key _ => "account_key"
  | call_account_representative _ => "account_representative"
  | call_account_weight _ => "account_weight"
  | call_accounts_balances _ _ => "accounts_balances"
  | call_accounts_frontiers _ => "accounts_frontiers"
  | call_accounts_receivable _ _ _ _ _ _ _ => "accounts_receivable"
  | call_accounts_representatives _ => "accounts_representatives"
  | call_available_supply => "available_supply"
  | call_block_account _ => "block_account"
  | call_block_confirm _ => "block_confirm"
  | call_block_count _ => "block_count"
  | call_block_create _ _ _ _ _ _ _ _ _ _ _ _ _ => "block_create"
  | call_block_hash _ _ => "block_hash"
  | call_block_info _ _ => "block_info"
  | call_blocks _ _ => "blocks"
  | call_blocks_info _ _ _ _ _ _ => "blocks_info"
  | call_bootstrap _ _ _ _ => "bootstrap"
  | call_bootstrap_any _ _ _ => "bootstrap_any"
  | call_bootstrap_lazy _ _ _ => "bootstrap_lazy"
  | call_bootstrap_status => "bootstrap_status"
  | call_chain _ _ _ _ => "chain"
  | call_confirmation_active _ => "confirmation_active"
  | call_confirmation_height_currently_processing => "confirmation_height_currently_processing"
  | call_confirmation_history _ => "confirmation_history"
  | call_confirmation_info _ _ _ _ => "confirmation_info"
  | call_confirmation_quorum _ => "confirmation_quorum"
  | call_database_txn_tracker _ _ => "database_txn_tracker"
  | call_delegators _ _ _ _ => "delegators"
  | call_delegators_count _ => "delegators_count"
  | call_deterministic_key _ _ => "deterministic_key"
  | call_election_statistics => "election_statistics"
  | call_epoch_upgrade _ _ _ _ => "epoch_upgrade"
  | call_frontier_count => "frontier_count"
  | call_frontiers _ _ => "frontiers"
  | call_keepalive _ _ => "keepalive"
  | call_key_create => "key_create"
  | call_key_expand _ => "key_expand"
  | call_ledger _ _ _ _ _ _ _ _ => "ledger"
  | call_node_id => "node_id"
  | call_node_id_delete => "node_id_delete"
  | call_peers _ => "peers"
  | call_populate_backlog => "populate_backlog"
  | call_process _ _ _ _ _ _ => "process"
  | call_receivable _ _ _ _ _ _ _ _ => "receivable"
  | call_receivable_exists _ _ _ => "receivable_exists"
  | call_representatives _ _ => "representatives"
  | call_representatives_online _ _ => "representatives_online"
  | call_republish _ _ _ _ => "republish"
  | call_sign _ _ _ _ _ _ => "sign"
  | call_stats _ => "stats"
  | call_stats_clear => "stats_clear"
  | call_stop => "stop"
  | call_successors _ _ _ _ => "successors"
  | call_telemetry _ _ _ => "telemetry"
  | call_validate_account_number _ => "validate_account_number"
  | call_version => "version"
  | call_unchecked _ _ => "unchecked"
  | call_unchecked_clear => "unchecked_clear"
  | call_unchecked_get _ _ => "unchecked_get"
  | call_unchecked_keys _ _ _ => "unchecked_keys"
  | call_unopened _ _ _ => "unopened"
  | call_uptime => "uptime"
  | call_work_cancel _ => "work_cancel"
  | call_work_generate _ _ _ _ _ _ _ _ => "work_generate"
  | call_work_peer_add _ _ => "work_peer_add"
  | call_work_peers => "work_peers"
  | call_work_peers_clear => "work_peers_clear"
  | call_work_validate _ _ _ _ _ => "work_validate"
  | call_account_create _ _ _ => "account_create"
  | call_account_list _ => "account_list"
  | call_account_move _ _ _ => "account_move"
  | call_account_remove _ _ => "account_remove"
  | call_account_representative_set _ _ _ _ => "account_representative_set"
  | call_accounts_create _ _ _ => "accounts_create"
  | call_password_change _ _ => "password_change"
  | call_password_enter _ _ => "password_enter"
  | call_password_valid _ => "password_valid"
  | call_receive _ _ _ _ => "receive"
  | call_receive_minimum => "receive_minimum"
  | call_receive_minimum_set _ => "receive_minimum_set"
  | call_search_receivable _ => "search_receivable"
  | call_search_receivable_all => "search_receivable_all"
  | call_send _ _ _ _ _ _ => "send"
  | call_wallet_add _ _ _ => "wallet_add"
  | call_wallet_add_watch _ _ => "wallet_add_watch"
  | call_wallet_balances _ _ => "wallet_balances"
  | call_wallet_change_seed _ _ _ => "wallet_change_seed"
  | call_wallet_contains _ _ => "wallet_contains"
  | call_wallet_create _ => "wallet_create"
  | call_wallet_destroy _ => "wallet_destroy"
  | call_wallet_export _ => "wallet_export"
  | call_wallet_frontiers _ => "wallet_frontiers"
  | call_wallet_history _ _ => "wallet_history"
  | call_wallet_info _ => "wallet_info"
  | call_wallet_ledger _ _ _ _ _ => "wallet_ledger"
  | call_wallet_lock _ => "wallet_lock"
  | call_wallet_locked _ => "wallet_locked"
  | call_wallet_receivable _ _ _ _ _ _ _ => "wallet_receivable"
  | call_wallet_representative _ => "wallet_representative"
  | call_wallet_representative_set _ _ _ => "wallet_representative_set"
  | call_wallet_republish _ _ => "wallet_republish"
  | call_wallet_work_get _ => "wallet_work_get"
  | call_work_get _ _ => "work_get"
  | call_work_set _ _ _ => "work_set"
  | call_nano_to_raw _ => "nano_to_raw"
  | call_raw_to_nano _ => "raw_to_nano"
  end.

(** The arguments a method declares without a default, each under its wire
    name: the parameter's name without the underscore that keeps it clear
    of a Python builtin. *)
Definition required (c : call) : list (string * json) :=
  match c with
  | call_account_balance account _ => [("account", to_json account)]
  | call_account_block_count account => [("account", to_json account)]
  | call_account_get key => [("key", to_json key)]
  | call_account_history account _ _ _ _ _ _ => [("account", to_json account)]
  | call_account_info account _ _ _ _ => [("account", to_json account)]
  | call_account_key account => [("account", to_json account)]
  | call_account_representative account => [("account", to_json account)]
  | call_account_weight account => [("account", to_json account)]
  | call_accounts_balances accounts _ => [("accounts", to_json accounts)]
  | call_accounts_frontiers accounts => [("accounts", to_json accounts)]
  | call_accounts_receivable accounts _ _ _ _ _ _ => [("accounts", to_json accounts)]
  | call_accounts_representatives accounts => [("accounts", to_json accounts)]
  | call_available_supply => []
  | call_block_account _hash => [("hash", to_json _hash)]
  | call_block_confirm _hash => [("hash", to_json _hash)]
  | call_block_count _ => []
  | call_block_create balance representative previous _ _ _ _ _ _ _ _ _ _ =>
      [("balance", to_json balance); ("representative", to_json representative);
       ("previous", to_json previous)]
  | call_block_hash block _ => [("block", to_json block)]
  | call_block_info _hash _ => [("hash", to_json _hash)]
  | call_blocks hashes _ => [("hashes", to_json hashes)]
  | call_blocks_info hashes _ _ _ _ _ => [("hashes", to_json hashes)]
  | call_bootstrap address port _ _ =>
      [("address", to_json address); ("port", to_json port)]
  | call_bootstrap_any _ _ _ => []
  | call_bootstrap_lazy hash_ _ _ => [("hash", to_json hash_)]
  | call_bootstrap_status => []
  | call_chain block _ _ _ => [("block", to_json block)]
  | call_confirmation_active _ => []
  | call_confirmation_height_currently_processing => []
  | call_confirmation_history _ => []
  | call_confirmation_info root _ _ _ => [("root", to_json root)]
  | call_confirmation_quorum _ => []
  | call_database_txn_tracker min_read_time min_write_time =>
      [("min_read_time", to_json min_read_time); ("min_write_time", to_json min_write_time)]
  | call_delegators account _ _ _ => [("account", to_json account)]
  | call_delegators_count account => [("account", to_json account)]
  | call_deterministic_key seed index =>
      [("seed", to_json seed); ("index", to_json index)]
  | call_election_statistics => []
  | call_epoch_upgrade epoch key _ _ => [("epoch", to_json epoch); ("key", to_json key)]
  | call_frontier_count => []
  | call_frontiers account _ => [("account", to_json account)]
  | call_keepalive address port =>
      [("address", to_json address); ("port", to_json port)]
  | call_key_create => []
  | call_key_expand key => [("key", to_json key)]
  | call_ledger account _ _ _ _ _ _ _ => [("account", to_json account)]
  | call_node_id => []
  | call_node_id_delete => []
  | call_peers _ => []
  | call_populate_backlog => []
  | call_process block _ _ _ _ _ => [("block", to_json block)]
  | call_receivable account _ _ _ _ _ _ _ => [("account", to_json account)]
  | call_receivable_exists _hash _ _ => [("hash", to_json _hash)]
  | call_representatives _ _ => []
  | call_representatives_online _ _ => []
  | call_republish _hash _ _ _ => [("hash", to_json _hash)]
  | call_sign _ _ _ _ _ _ => []
  | call_stats _type => [("type", to_json _type)]
  | call_stats_clear => []
  | call_stop => []
  | call_successors block _ _ _ => [("block", to_json block)]
  | call_telemetry _ _ _ => []
  | call_validate_account_number account => [("account", to_json account)]
  | call_version => []
  | call_unchecked _ _ => []
  | call_unchecked_clear => []
  | call_unchecked_get _hash _ => [("hash", to_json _hash)]
  | call_unchecked_keys key _ _ => [("key", to_json key)]
  | call_unopened _ _ _ => []
  | call_uptime => []
  | call_work_cancel _hash => [("hash", to_json _hash)]
  | call_work_generate _hash _ _ _ _ _ _ _ => [("hash", to_json _hash)]
  | call_work_peer_add address port =>
      [("address", to_json address); ("port", to_json port)]
  | call_work_peers => []
  | call_work_peers_clear => []
  | call_work_validate work _hash _ _ _ =>
      [("work", to_json work); ("hash", to_json _hash)]
  | call_account_create wallet _ _ => [("wallet", to_json wallet)]
  | call_account_list wallet => [("wallet", to_json wallet)]
  | call_account_move wallet source accounts =>
      [("wallet", to_json wallet); ("source", to_json source);
       ("accounts", to_json accounts)]
  | call_account_remove wallet account =>
      [("wallet", to_json wallet); ("account", to_json account)]
  | call_account_representative_set wallet account representative _ =>
      [("wallet", to_json wallet); ("account", to_json account);
       ("representative", to_json representative)]
  | call_accounts_create wallet _ _ => [("wallet", to_json wallet)]
  | call_password_change wallet password =>
      [("wallet", to_json wallet); ("password", to_json password)]
  | call_password_enter wallet password =>
      [("wallet", to_json wallet); ("password", to_json password)]
  | call_password_valid wallet => [("wallet", to_json wallet)]
  | call_receive wallet account block _ =>
      [("wallet", to_json wallet); ("account", to_json account); ("block", to_json block)]
  | call_receive_minimum => []
  | call_receive_minimum_set amount => [("amount", to_json amount)]
  | call_search_receivable wallet => [("wallet", to_json wallet)]
  | call_search_receivable_all => []
  | call_send wallet source destination amount _ _ =>
      [("wallet", to_json wallet); ("source", to_json source);
       ("destination", to_json destination); ("amount", to_json amount)]
  | call_wallet_add wallet key _ => [("wallet", to_json wallet); ("key", to_json key)]
  | call_wallet_add_watch wallet accounts =>
      [("wallet", to_json wallet); ("accounts", to_json accounts)]
  | call_wallet_balances wallet _ => [("wallet", to_json wallet)]
  | call_wallet_change_seed wallet seed _ =>
      [("wallet", to_json wallet); ("seed", to_json seed)]
  | call_wallet_contains wallet account =>
      [("wallet", to_json wallet); ("account", to_json account)]
  | call_wallet_create _ => []
  | call_wallet_destroy wallet => [("wallet", to_json wallet)]
  | call_wallet_export wallet => [("wallet", to_json wallet)]
  | call_wallet_frontiers wallet => [("wallet", to_json wallet)]
  | call_wallet_history wallet _ => [("wallet", to_json wallet)]
  | call_wallet_info wallet => [("wallet", to_json wallet)]
  | call_wallet_ledger wallet _ _ _ _ => [("wallet", to_json wallet)]
  | call_wallet_lock wallet => [("wallet", to_json wallet)]
  | call_wallet_locked wallet => [("wallet", to_json wallet)]
  | call_wallet_receivable wallet _ _ _ _ _ _ => [("wallet", to_json wallet)]
  | call_wallet_representative wallet => [("wallet", to_json wallet)]
  | call_wallet_representative_set wallet representative _ =>
      [("wallet", to_json wallet); ("representative", to_json representative)]
  | call_wallet_republish wallet _ => [("wallet", to_json wallet)]
  | call_wallet_work_get wallet => [("wallet", to_json wallet)]
  | call_work_get wallet account =>
      [("wallet", to_json wallet); ("account", to_json account)]
  | call_work_set wallet account work =>
      [("wallet", to_json wallet); ("account", to_json account); ("work", to_json work)]
  | call_nano_to_raw amount => [("amount", to_json amount)]
  | call_raw_to_nano amount => [("amount", to_json amount)]
  end.

(** ** The methods, on the store

    The methods again, as Python runs them.  [data = {}] makes a new
    dictionary object, [data[k] = v] changes the object that [data] refers
    to, and [self._post(data)] is handed that reference.  The objects made by
    earlier calls stay in the store.  Arguments are values: no method
    assigns to one. *)

Module Store.

(** The address of a dictionary object, and the objects alive. *)
Definition ref := nat.
Definition store := list dict.

Definition Py (A : Type) : Type := store -> A * store.

Definition bind {A B} (m : Py A) (f : A -> Py B) : Py B :=
  fun objects => let (a, objects') := m objects in f a objects'.

Notation "'let*' x ':=' m 'in' k" := (bind m (fun x => k))
  (at level 10, x name, m at level 100, k at level 200, only parsing).

(** The object at [r], read and changed.  An address is only ever obtained
    with its object, so the branches for a missing object are never taken. *)
Definition deref (r : ref) : Py dict :=
  fun objects => (nth r objects [], objects).

Fixpoint update (r : ref) (f : dict -> dict) (objects : store) : store :=
  match objects, r with
  | [], _ => []
  | d :: rest, O => f d :: rest
  | d :: rest, S r' => d :: update r' f rest
  end.

(** A statement of a body: it acts on the object the local [data] refers
    to. *)
Definition stmt := ref -> Py unit.

(** [data[k] = v] *)
Definition assign {A} `{ToJson A} (k : string) (v : A) : stmt :=
  fun data objects => (tt, update data (setitem k (to_json v)) objects).

Definition seq (s1 s2 : stmt) : stmt :=
  fun data => let* _ := s1 data in s2 data.

Definition if_then {A} `{Truthy A} (c : A) (s : stmt) : stmt :=
  fun data objects => if truthy c then s data objects else (tt, objects).

Definition if_else {A} `{Truthy A} (c : A) (s1 s2 : stmt) : stmt :=
  fun data objects => if truthy c then s1 data objects else s2 data objects.

Declare Scope store_scope.
Delimit Scope store_scope with store.
Bind Scope store_scope with stmt.
Arguments seq (s1 s2)%_store.
Arguments if_then {A _} c s%_store.
Arguments if_else {A _} c (s1 s2)%_store.
Notation "'data[' k ']' '::=' v" := (assign k v)
  (at level 60, k at level 0, v at level 59) : store_scope.
Notation "s1 ;; s2" := (seq s1 s2) (at level 61, left associativity) : store_scope.
Notation "'If' c 'then:' s" := (if_then c s)
  (at level 60, c at level 0, s at level 60) : store_scope.
Notation "'If' c 'then:' s1 'else:' s2" := (if_else c s1 s2)
  (at level 60, c at level 0, s1 at level 60, s2 at level 60) : store_scope.

(** [data: dict[str, Any] = {}] makes a new, empty object, at the next free
    address; the statements of the body then act on it. *)
Definition build (body : stmt) : Py ref :=
  fun objects =>
    let data := List.length objects in
    let (_, objects') := body data (objects ++ [[]])%list in
    (data, objects').
Arguments build body%_store.

(** A [self._post] that reads the object it is handed and passes its
    content on. *)
Definition sends {R : Type} (post : dict -> R) : ref -> Py R :=
  fun data => let* content := deref data in fun objects => (post content, objects).

Section Methods.
Context {codec : JsonCodec}.
Variable R : Type.
Variable self_post : ref -> Py R.

Definition account_balance (account : string)
    (include_only_confirmed : option bool) : Py R :=
  let include_only_confirmed := include_only_confirmed ?: true in
  let* data := build (
    data["action"] ::= "account_balance" ;;
    data["account"] ::= account ;;
    If (negb include_only_confirmed) then: data["include_only_confirmed"] ::= false) in
  self_post data.

Definition account_block_count (account : string) : Py R :=
  let* data := build (
    data["action"] ::= "account_block_count" ;;
    data["account"] ::= account) in
  self_post data.

Definition account_get (key : string) : Py R :=
  let* data := build (
    data["action"] ::= "account_get" ;;
    data["key"] ::= key) in
  self_post data.

Definition account_history (account : string) (count : option Z) (raw : option bool)
    (head : option string) (offset : option Z) (reverse : option bool)
    (account_filter : option (list string)) : Py R :=
  let count := count ?: 1 in
  let raw := raw ?: false in
  let head := head ?: "" in
  let offset := offset ?: 0 in
  let reverse := reverse ?: false in
  let* data := build (
    data["action"] ::= "account_history" ;;
    data["account"] ::= account ;;
    data["count"] ::= count ;;
    If raw then: data["raw"] ::= true ;;
    If head then: data["head"] ::= head ;;
    If offset then: data["offset"] ::= offset ;;
    If reverse then: data["reverse"] ::= reverse ;;
    If account_filter then: data["account_filter"] ::= account_filter) in
  self_post data.

Definition account_info (account : string) (include_confirmed : option bool)
    (representative : option bool) (weight : option bool)
    (pending : option bool) : Py R :=
  let include_confirmed := include_confirmed ?: false in
  let representative := representative ?: false in
  let weight := weight ?: false in
  let pending := pending ?: false in
  let* data := build (
    data["action"] ::= "account_info" ;;
    data["account"] ::= account ;;
    If include_confirmed then: data["include_confirmed"] ::= true ;;
    If representative then: data["representative"] ::= true ;;
    If weight then: data["weight"] ::= true ;;
    If pending then: data["pending"] ::= true) in
  self_post data.

Definition account_key (account : string) : Py R :=
  let* data := build (
    data["action"] ::= "account_key" ;;
    data["account"] ::= account) in
  self_post data.

Definition account_representative (account : string) : Py R :=
  let* data := build (
    data["action"] ::= "account_representative" ;;
    data["account"] ::= account) in
  self_post data.

Definition account_weight (account : string) : Py R :=
  let* data := build (
    data["action"] ::= "account_weight" ;;
    data["account"] ::= account) in
  self_post data.

Definition accounts_balances (accounts : list string)
    (include_only_confirmed : option bool) : Py R :=
  let include_only_confirmed := include_only_confirmed ?: true in
  let* data := build (
    data["action"] ::= "accounts_balances" ;;
    data["accounts"] ::= accounts ;;
    If (negb include_only_confirmed) then: data["include_only_confirmed"] ::= false) in
  self_post data.

Definition accounts_frontiers (accounts : list string) : Py R :=
  let* data := build (
    data["action"] ::= "accounts_frontiers" ;;
    data["accounts"] ::= accounts) in
  self_post data.

Definition accounts_receivable (accounts : list string) (count : option Z)
    (threshold : option string) (source : option bool) (include_active : option bool)
    (sorting : option bool) (include_only_confirmed : option bool) : Py R :=
  let count := count ?: 1 in
  let threshold := threshold ?: "" in
  let source := source ?: false in
  let include_active := include_active ?: false in
  let sorting := sorting ?: false in
  let include_only_confirmed := include_only_confirmed ?: true in
  let* data := build (
    data["action"] ::= "accounts_receivable" ;;
    data["accounts"] ::= accounts ;;
    data["count"] ::= count ;;
    If threshold then: data["threshold"] ::= threshold ;;
    If source then: data["source"] ::= true ;;
    If include_active then: data["include_active"] ::= true ;;
    If sorting then: data["sorting"] ::= true ;;
    If (negb include_only_confirmed) then: data["include_only_confirmed"] ::= false) in
  self_post data.

Definition accounts_representatives (accounts : list string) : Py R :=
  let* data := build (
    data["action"] ::= "accounts_representatives" ;;
    data["accounts"] ::= accounts) in
  self_post data.

Definition available_supply : Py R :=
  let* data := build (
    data["action"] ::= "available_supply") in
  self_post data.

Definition block_account (_hash : string) : Py R :=
  let* data := build (
    data["action"] ::= "block_account" ;;
    data["hash"] ::= _hash) in
  self_post data.

Definition block_confirm (_hash : string) : Py R :=
  let* data := build (
    data["action"] ::= "block_confirm" ;;
    data["hash"] ::= _hash) in
  self_post data.

Definition block_count (include_cemented : option bool) : Py R :=
  let include_cemented := include_cemented ?: true in
  let* data := build (
    data["action"] ::= "block_count" ;;
    If (negb include_cemented) then: data["include_cemented"] ::= false) in
  self_post data.

Definition block_create (balance : string) (representative : string)
    (previous : string) (wallet : option string) (account : option string)
    (key : option string) (source : option string) (destination : option string)
    (link : option string) (work : option string) (version : option string)
    (json_block : option bool) (difficulty : option string) : Py R :=
  let wallet := wallet ?: "" in
  let account := account ?: "" in
  let key := key ?: "" in
  let source := source ?: "" in
  let destination := destination ?: "" in
  let link := link ?: "" in
  let work := work ?: "" in
  let version := version ?: "work_1" in
  let json_block := json_block ?: false in
  let difficulty := difficulty ?: "" in
  let* data := build (
    data["action"] ::= "block_create" ;;
    data["type"] ::= "state" ;;
    data["balance"] ::= balance ;;
    If wallet then: data["wallet"] ::= wallet ;;
    If account then: data["account"] ::= account ;;
    If key then: data["key"] ::= key ;;
    If source then: data["source"] ::= source ;;
    If destination then: data["destination"] ::= destination ;;
    If link then: data["link"] ::= link ;;
    data["representative"] ::= representative ;;
    data["previous"] ::= previous ;;
    If work then: data["work"] ::= work
    else:
      (If difficulty then: data["difficulty"] ::= difficulty) ;;
    If (is_in version ["work_1"]) then: data["version"] ::= version ;;
    If json_block then: data["json_block"] ::= true) in
  self_post data.

Definition block_hash (block : list (string * string))
    (json_block : option bool) : Py R :=
  let json_block := json_block ?: false in
  let* data := build (
    data["action"] ::= "block_hash" ;;
    data["block"] ::= block ;;
    If json_block then: data["json_block"] ::= true) in
  self_post data.

Definition block_info (_hash : string) (json_block : option bool) : Py R :=
  let json_block := json_block ?: false in
  let* data := build (
    data["action"] ::= "block_info" ;;
    data["hash"] ::= _hash ;;
    If json_block then: data["json_block"] ::= true) in
  self_post data.

Definition blocks (hashes : list string) (json_block : option bool) : Py R :=
  let json_block := json_block ?: false in
  let* data := build (
    data["action"] ::= "blocks" ;;
    data["hashes"] ::= hashes ;;
    If json_block then: data["json_block"] ::= true) in
  self_post data.

Definition blocks_info (hashes : list string) (pending : option bool)
    (source : option bool) (receive_hash : option bool) (json_block : option bool)
    (include_not_found : option bool) : Py R :=
  let pending := pending ?: false in
  let source := source ?: false in
  let receive_hash := receive_hash ?: false in
  let json_block := json_block ?: false in
  let include_not_found := include_not_found ?: false in
  let* data := build (
    data["action"] ::= "blocks_info" ;;
    data["hashes"] ::= hashes ;;
    If pending then: data["pending"] ::= true ;;
    If source then: data["source"] ::= true ;;
    If receive_hash then: data["receive_hash"] ::= true ;;
    If json_block then: data["json_block"] ::= true ;;
    If include_not_found then: data["include_not_found"] ::= true) in
  self_post data.

Definition bootstrap (address : string) (port : string)
    (bypass_frontier_confirmation : option bool) (_id : option string) : Py R :=
  let bypass_frontier_confirmation := bypass_frontier_confirmation ?: false in
  let _id := _id ?: "" in
  let* data := build (
    data["action"] ::= "bootstrap" ;;
    data["address"] ::= address ;;
    data["port"] ::= port ;;
    If _id then: data["id"] ::= _id ;;
    If bypass_frontier_confirmation then: data["bypass_frontier_confirmation"] ::= true) in
  self_post data.

Definition bootstrap_any (force : option bool) (_id : option string)
    (account : option string) : Py R :=
  let force := force ?: false in
  let _id := _id ?: "" in
  let account := account ?: "" in
  let* data := build (
    data["action"] ::= "bootstrap_any" ;;
    If force then: data["force"] ::= true ;;
    If _id then: data["id"] ::= _id ;;
    If account then: data["account"] ::= account) in
  self_post data.

Definition bootstrap_lazy (hash_ : string) (force : option bool)
    (_id : option string) : Py R :=
  let force := force ?: false in
  let _id := _id ?: "" in
  let* data := build (
    data["action"] ::= "bootstrap_lazy" ;;
    data["hash"] ::= hash_ ;;
    If force then: data["force"] ::= true ;;
    If _id then: data["id"] ::= _id) in
  self_post data.

Definition bootstrap_status : Py R :=
  let* data := build (
    data["action"] ::= "bootstrap_status") in
  self_post data.

Definition chain (block : string) (count : option Z) (offset : option Z)
    (reverse : option bool) : Py R :=
  let count := count ?: 1 in
  let offset := offset ?: 0 in
  let reverse := reverse ?: false in
  let* data := build (
    data["action"] ::= "chain" ;;
    data["block"] ::= block ;;
    data["count"] ::= count ;;
    If offset then: data["offset"] ::= offset ;;
    If reverse then: data["reverse"] ::= true) in
  self_post data.

Definition confirmation_active (announcements : option Z) : Py R :=
  let announcements := announcements ?: 0 in
  let* data := build (
    data["action"] ::= "confirmation_active" ;;
    If announcements then: data["announcements"] ::= announcements) in
  self_post data.

Definition confirmation_height_currently_processing : Py R :=
  let* data := build (
    data["action"] ::= "confirmation_height_currently_processing") in
  self_post data.

Definition confirmation_history (_hash : option string) : Py R :=
  let _hash := _hash ?: "" in
  let* data := build (
    data["action"] ::= "confirmation_history" ;;
    If _hash then: data["hash"] ::= _hash) in
  self_post data.

Definition confirmation_info (root : string) (contents : option bool)
    (representatives : option bool) (json_block : option bool) : Py R :=
  let contents := contents ?: true in
  let representatives := representatives ?: false in
  let json_block := json_block ?: false in
  let* data := build (
    data["action"] ::= "confirmation_info" ;;
    data["root"] ::= root ;;
    If (negb contents) then: data["contents"] ::= false ;;
    If representatives then: data["representatives"] ::= true ;;
    If json_block then: data["json_block"] ::= true) in
  self_post data.

Definition confirmation_quorum (peer_details : option bool) : Py R :=
  let peer_details := peer_details ?: false in
  let* data := build (
    data["action"] ::= "confirmation_quorum" ;;
    If peer_details then: data["peer_details"] ::= true) in
  self_post data.

Definition database_txn_tracker (min_read_time : Z) (min_write_time : Z) : Py R :=
  let* data := build (
    data["action"] ::= "database_txn_tracker" ;;
    data["min_read_time"] ::= min_read_time ;;
    data["min_write_time"] ::= min_write_time) in
  self_post data.

Definition delegators (account : string) (threshold : option Z) (count : option Z)
    (start : option string) : Py R :=
  let threshold := threshold ?: 0 in
  let count := count ?: 0 in
  let start := start ?: "" in
  let* data := build (
    data["action"] ::= "delegators" ;;
    data["account"] ::= account ;;
    If threshold then: data["threshold"] ::= threshold ;;
    If count then: data["count"] ::= count ;;
    If start then: data["start"] ::= start) in
  self_post data.

Definition delegators_count (account : string) : Py R :=
  let* data := build (
    data["action"] ::= "delegators_count" ;;
    data["account"] ::= account) in
  self_post data.

Definition deterministic_key (seed : string) (index : Z) : Py R :=
  let* data := build (
    data["action"] ::= "deterministic_key" ;;
    data["seed"] ::= seed ;;
    data["index"] ::= index) in
  self_post data.

Definition election_statistics : Py R :=
  let* data := build (
    data["action"] ::= "election_statistics") in
  self_post data.

Definition epoch_upgrade (epoch : Z) (key : string) (count : option Z)
    (threads : option Z) : Py R :=
  let count := count ?: 0 in
  let threads := threads ?: 0 in
  let* data := build (
    data["action"] ::= "epoch_upgrade" ;;
    data["epoch"] ::= epoch ;;
    data["key"] ::= key ;;
    If count then: data["count"] ::= count ;;
    If threads then: data["threads"] ::= threads) in
  self_post data.

Definition frontier_count : Py R :=
  let* data := build (
    data["action"] ::= "frontier_count") in
  self_post data.

Definition frontiers (account : string) (count : option Z) : Py R :=
  let count := count ?: 1 in
  let* data := build (
    data["action"] ::= "frontiers" ;;
    data["account"] ::= account ;;
    data["count"] ::= count) in
  self_post data.

Definition keepalive (address : string) (port : Z) : Py R :=
  let* data := build (
    data["action"] ::= "keepalive" ;;
    data["address"] ::= address ;;
    data["port"] ::= port) in
  self_post data.

Definition key_create : Py R :=
  let* data := build (
    data["action"] ::= "key_create") in
  self_post data.

Definition key_expand (key : string) : Py R :=
  let* data := build (
    data["action"] ::= "key_expand" ;;
    data["key"] ::= key) in
  self_post data.

Definition ledger (account : string) (count : option Z) (representative : option bool)
    (weight : option bool) (receivable : option bool) (modified_since : option Z)
    (sorting : option bool) (threshold : option Z) : Py R :=
  let count := count ?: 1 in
  let representative := representative ?: false in
  let weight := weight ?: false in
  let receivable := receivable ?: false in
  let modified_since := modified_since ?: 0 in
  let sorting := sorting ?: false in
  let threshold := threshold ?: 0 in
  let* data := build (
    data["action"] ::= "ledger" ;;
    data["account"] ::= account ;;
    data["count"] ::= count ;;
    If representative then: data["representative"] ::= true ;;
    If weight then: data["weight"] ::= true ;;
    If receivable then: data["receivable"] ::= true ;;
    If modified_since then: data["modified_since"] ::= modified_since ;;
    If sorting then: data["sorting"] ::= true ;;
    If threshold then: data["threshold"] ::= threshold) in
  self_post data.

Definition node_id : Py R :=
  let* data := build (
    data["action"] ::= "node_id") in
  self_post data.

Definition node_id_delete : Py R :=
  let* data := build (
    data["action"] ::= "node_id_delete") in
  self_post data.

Definition peers (peer_details : option bool) : Py R :=
  let peer_details := peer_details ?: false in
  let* data := build (
    data["action"] ::= "peers" ;;
    If peer_details then: data["peer_details"] ::= true) in
  self_post data.

Definition populate_backlog : Py R :=
  let* data := build (
    data["action"] ::= "populate_backlog") in
  self_post data.

Definition process (block : str_or_dict) (force : option bool)
    (subtype : option string) (json_block : option bool) (watch_work : option bool)
    (_async : option bool) : Py R :=
  let force := force ?: false in
  let subtype := subtype ?: "" in
  let json_block := json_block ?: false in
  let watch_work := watch_work ?: true in
  let _async := _async ?: false in
  let* data := build (
    data["action"] ::= "process" ;;
    data["block"] ::= block ;;
    If force then: data["force"] ::= true ;;
    If subtype then: data["subtype"] ::= subtype ;;
    If json_block then: data["json_block"] ::= true ;;
    If (negb watch_work) then: data["watch_work"] ::= false ;;
    If _async then: data["async"] ::= true) in
  self_post data.

Definition receivable (account : string) (count : option Z) (threshold : option Z)
    (source : option bool) (include_active : option bool) (min_version : option bool)
    (sorting : option bool) (include_only_confirmed : option bool) : Py R :=
  let count := count ?: 0 in
  let threshold := threshold ?: 0 in
  let source := source ?: false in
  let include_active := include_active ?: false in
  let min_version := min_version ?: false in
  let sorting := sorting ?: false in
  let include_only_confirmed := include_only_confirmed ?: true in
  let* data := build (
    data["action"] ::= "receivable" ;;
    data["account"] ::= account ;;
    If count then: data["count"] ::= count ;;
    If threshold then: data["threshold"] ::= threshold ;;
    If source then: data["source"] ::= true ;;
    If include_active then: data["include_active"] ::= true ;;
    If min_version then: data["min_version"] ::= true ;;
    If sorting then: data["sorting"] ::= true ;;
    If (negb include_only_confirmed) then: data["include_only_confirmed"] ::= false) in
  self_post data.

Definition receivable_exists (_hash : string) (include_active : option bool)
    (include_only_confirmed : option bool) : Py R :=
  let include_active := include_active ?: false in
  let include_only_confirmed := include_only_confirmed ?: true in
  let* data := build (
    data["action"] ::= "receivable_exists" ;;
    data["hash"] ::= _hash ;;
    If include_active then: data["include_active"] ::= true ;;
    If (negb include_only_confirmed) then: data["include_only_confirmed"] ::= false) in
  self_post data.

Definition representatives (count : option Z) (sorting : option bool) : Py R :=
  let count := count ?: 1 in
  let sorting := sorting ?: false in
  let* data := build (
    data["action"] ::= "representatives" ;;
    data["count"] ::= count ;;
    If sorting then: data["sorting"] ::= true) in
  self_post data.

Definition representatives_online (weight : option bool)
    (accounts : option (list string)) : Py R :=
  let weight := weight ?: false in
  let* data := build (
    data["action"] ::= "representatives_online" ;;
    If weight then: data["weight"] ::= true ;;
    If accounts then: data["accounts"] ::= accounts) in
  self_post data.

Definition republish (_hash : string) (count : option Z) (sources : option Z)
    (destinations : option Z) : Py R :=
  let count := count ?: 1 in
  let sources := sources ?: 0 in
  let destinations := destinations ?: 0 in
  let* data := build (
    data["action"] ::= "republish" ;;
    data["hash"] ::= _hash ;;
    If sources then:
      (data["sources"] ::= sources ;;
       data["count"] ::= count) ;;
    If destinations then:
      (data["destinations"] ::= destinations ;;
       data["count"] ::= count)) in
  self_post data.

Definition sign (key : option string) (wallet : option string)
    (account : option string) (block : option str_or_dict) (_hash : option string)
    (json_block : option bool) : Py R :=
  let key := key ?: "" in
  let wallet := wallet ?: "" in
  let account := account ?: "" in
  let block := block ?: (Str "") in
  let _hash := _hash ?: "" in
  let json_block := json_block ?: false in
  let* data := build (
    data["action"] ::= "sign" ;;
    If key then: data["key"] ::= key ;;
    If wallet then: data["wallet"] ::= wallet ;;
    If account then: data["account"] ::= account ;;
    If (isinstance_str block) then: data["block"] ::= block
    else: data["block"] ::= (dumps (to_json block)) ;;
    If _hash then: data["_hash"] ::= _hash ;;
    If json_block then: data["json_block"] ::= true) in
  self_post data.

Definition stats (_type : string) : Py R :=
  let* data := build (
    data["action"] ::= "stats" ;;
    data["type"] ::= _type) in
  self_post data.

Definition stats_clear : Py R :=
  let* data := build (
    data["action"] ::= "stats_clear") in
  self_post data.

Definition stop : Py R :=
  let* data := build (
    data["action"] ::= "stop") in
  self_post data.

Definition successors (block : string) (count : option Z) (offset : option Z)
    (reverse : option bool) : Py R :=
  let count := count ?: 1 in
  let offset := offset ?: 0 in
  let reverse := reverse ?: false in
  let* data := build (
    data["action"] ::= "successors" ;;
    data["block"] ::= block ;;
    data["count"] ::= count ;;
    If offset then: data["offset"] ::= offset ;;
    If reverse then: data["reverse"] ::= true) in
  self_post data.

Definition telemetry (raw : option bool) (address : option Z) (port : option Z) : Py R :=
  let raw := raw ?: false in
  let address := address ?: 0 in
  let port := port ?: 7075 in
  let* data := build (
    data["action"] ::= "telemetry" ;;
    If raw then: data["raw"] ::= true ;;
    If address then:
      (data["address"] ::= address ;;
       data["port"] ::= port)) in
  self_post data.

Definition validate_account_number (account : string) : Py R :=
  let* data := build (
    data["action"] ::= "validate_account_number" ;;
    data["account"] ::= account) in
  self_post data.

Definition version : Py R :=
  let* data := build (
    data["action"] ::= "version") in
  self_post data.

Definition unchecked (json_block : option bool) (count : option Z) : Py R :=
  let json_block := json_block ?: false in
  let count := count ?: 1 in
  let* data := build (
    data["action"] ::= "unchecked" ;;
    If json_block then: data["json_block"] ::= true ;;
    data["count"] ::= count) in
  self_post data.

Definition unchecked_clear : Py R :=
  let* data := build (
    data["action"] ::= "unchecked_clear") in
  self_post data.

Definition unchecked_get (_hash : string) (json_block : option bool) : Py R :=
  let json_block := json_block ?: false in
  let* data := build (
    data["action"] ::= "unchecked_get" ;;
    data["hash"] ::= _hash ;;
    If json_block then: data["json_block"] ::= true) in
  self_post data.

Definition unchecked_keys (key : string) (count : option Z)
    (json_block : option bool) : Py R :=
  let count := count ?: 1 in
  let json_block := json_block ?: false in
  let* data := build (
    data["action"] ::= "unchecked_keys" ;;
    data["key"] ::= key ;;
    data["count"] ::= count ;;
    If json_block then: data["json_block"] ::= true) in
  self_post data.

Definition unopened (account : option string) (count : option Z)
    (threshold : option Z) : Py R :=
  let account := account ?: "" in
  let count := count ?: 1 in
  let threshold := threshold ?: 0 in
  let* data := build (
    data["action"] ::= "unopened" ;;
    If account then: data["account"] ::= account ;;
    If count then: data["count"] ::= count ;;
    If threshold then: data["threshold"] ::= threshold) in
  self_post data.

Definition uptime : Py R :=
  let* data := build (
    data["action"] ::= "uptime") in
  self_post data.

Definition work_cancel (_hash : string) : Py R :=
  let* data := build (
    data["action"] ::= "work_cancel" ;;
    data["hash"] ::= _hash) in
  self_post data.

Definition work_generate (_hash : string) (use_peers : option bool)
    (difficulty : option string) (multiplier : option Z) (account : option string)
    (version : option string) (block : option string) (json_block : option bool) : Py R :=
  let use_peers := use_peers ?: false in
  let difficulty := difficulty ?: "" in
  let multiplier := multiplier ?: 0 in
  let account := account ?: "" in
  let version := version ?: "work_1" in
  let block := block ?: "" in
  let json_block := json_block ?: false in
  let* data := build (
    data["action"] ::= "work_generate" ;;
    data["hash"] ::= _hash ;;
    If use_peers then: data["use_peers"] ::= true ;;
    If multiplier then: data["multiplier"] ::= multiplier
    else:
      (If difficulty then: data["difficulty"] ::= difficulty) ;;
    If account then: data["account"] ::= account ;;
    If (is_in version ["work_1"]) then: data["version"] ::= version ;;
    If block then:
      (data["block"] ::= block ;;
       If json_block then: data["json_block"] ::= json_block)) in
  self_post data.

Definition work_peer_add (address : string) (port : Z) : Py R :=
  let* data := build (
    data["action"] ::= "work_peer_add" ;;
    data["address"] ::= address ;;
    data["port"] ::= port) in
  self_post data.

Definition work_peers : Py R :=
  let* data := build (
    data["action"] ::= "work_peers") in
  self_post data.

Definition work_peers_clear : Py R :=
  let* data := build (
    data["action"] ::= "work_peers_clear") in
  self_post data.

Definition work_validate (work : string) (_hash : string) (difficulty : option string)
    (multiplier : option Z) (version : option string) : Py R :=
  let difficulty := difficulty ?: "" in
  let multiplier := multiplier ?: 0 in
  let version := version ?: "work_1" in
  let* data := build (
    data["action"] ::= "work_validate" ;;
    data["work"] ::= work ;;
    data["hash"] ::= _hash ;;
    If multiplier then: data["multiplier"] ::= multiplier
    else:
      (If difficulty then: data["difficulty"] ::= difficulty) ;;
    If (is_in version ["work_1"]) then: data["version"] ::= version) in
  self_post data.

Definition account_create (wallet : string) (index : option Z)
    (work : option bool) : Py R :=
  let index := index ?: 0 in
  let work := work ?: true in
  let* data := build (
    data["action"] ::= "account_create" ;;
    data["wallet"] ::= wallet ;;
    If index then: data["index"] ::= index ;;
    If (negb work) then: data["work"] ::= false) in
  self_post data.

Definition account_list (wallet : string) : Py R :=
  let* data := build (
    data["action"] ::= "account_list" ;;
    data["wallet"] ::= wallet) in
  self_post data.

Definition account_move (wallet : string) (source : string)
    (accounts : list string) : Py R :=
  let* data := build (
    data["action"] ::= "account_move" ;;
    data["wallet"] ::= wallet ;;
    data["source"] ::= source ;;
    data["accounts"] ::= accounts) in
  self_post data.

Definition account_remove (wallet : string) (account : string) : Py R :=
  let* data := build (
    data["action"] ::= "account_remove" ;;
    data["wallet"] ::= wallet ;;
    data["account"] ::= account) in
  self_post data.

Definition account_representative_set (wallet : string) (account : string)
    (representative : string) (work : option string) : Py R :=
  let work := work ?: "" in
  let* data := build (
    data["action"] ::= "account_representative_set" ;;
    data["wallet"] ::= wallet ;;
    data["account"] ::= account ;;
    data["representative"] ::= representative ;;
    If work then: data["work"] ::= work) in
  self_post data.

Definition accounts_create (wallet : string) (count : option Z)
    (work : option bool) : Py R :=
  let count := count ?: 1 in
  let work := work ?: true in
  let* data := build (
    data["action"] ::= "accounts_create" ;;
    data["wallet"] ::= wallet ;;
    data["count"] ::= count ;;
    If (negb work) then: data["work"] ::= false) in
  self_post data.

Definition password_change (wallet : string) (password : string) : Py R :=
  let* data := build (
    data["action"] ::= "password_change" ;;
    data["wallet"] ::= wallet ;;
    data["password"] ::= password) in
  self_post data.

Definition password_enter (wallet : string) (password : string) : Py R :=
  let* data := build (
    data["action"] ::= "password_enter" ;;
    data["wallet"] ::= wallet ;;
    data["password"] ::= password) in
  self_post data.

Definition password_valid (wallet : string) : Py R :=
  let* data := build (
    data["action"] ::= "password_valid" ;;
    data["wallet"] ::= wallet) in
  self_post data.

Definition receive (wallet : string) (account : string) (block : string)
    (work : option string) : Py R :=
  let work := work ?: "" in
  let* data := build (
    data["action"] ::= "receive" ;;
    data["wallet"] ::= wallet ;;
    data["account"] ::= account ;;
    data["block"] ::= block ;;
    If work then: data["work"] ::= work) in
  self_post data.

Definition receive_minimum : Py R :=
  let* data := build (
    data["action"] ::= "receive_minimum") in
  self_post data.

Definition receive_minimum_set (amount : string) : Py R :=
  let* data := build (
    data["action"] ::= "receive_minimum_set" ;;
    data["amount"] ::= amount) in
  self_post data.

Definition search_receivable (wallet : string) : Py R :=
  let* data := build (
    data["action"] ::= "search_receivable" ;;
    data["wallet"] ::= wallet) in
  self_post data.

Definition search_receivable_all : Py R :=
  let* data := build (
    data["action"] ::= "search_receivable_all") in
  self_post data.

Definition send (wallet : string) (source : string) (destination : string)
    (amount : string) (_id : option string) (work : option string) : Py R :=
  let _id := _id ?: "" in
  let work := work ?: "" in
  let* data := build (
    data["action"] ::= "send" ;;
    data["wallet"] ::= wallet ;;
    data["source"] ::= source ;;
    data["destination"] ::= destination ;;
    data["amount"] ::= amount ;;
    If _id then: data["id"] ::= _id ;;
    If work then: data["work"] ::= work) in
  self_post data.

Definition wallet_add (wallet : string) (key : string) (work : option bool) : Py R :=
  let work := work ?: false in
  let* data := build (
    data["action"] ::= "wallet_add" ;;
    data["wallet"] ::= wallet ;;
    data["key"] ::= key ;;
    If work then: data["work"] ::= true) in
  self_post data.

Definition wallet_add_watch (wallet : string) (accounts : list string) : Py R :=
  let* data := build (
    data["action"] ::= "wallet_add_watch" ;;
    data["wallet"] ::= wallet ;;
    data["accounts"] ::= accounts) in
  self_post data.

Definition wallet_balances (wallet : string) (threshold : option Z) : Py R :=
  let threshold := threshold ?: 0 in
  let* data := build (
    data["action"] ::= "wallet_balances" ;;
    data["wallet"] ::= wallet ;;
    If threshold then: data["threshold"] ::= threshold) in
  self_post data.

Definition wallet_change_seed (wallet : string) (seed : string)
    (count : option Z) : Py R :=
  let count := count ?: 0 in
  let* data := build (
    data["action"] ::= "wallet_change_seed" ;;
    data["wallet"] ::= wallet ;;
    data["seed"] ::= seed ;;
    If count then: data["count"] ::= count) in
  self_post data.

Definition wallet_contains (wallet : string) (account : string) : Py R :=
  let* data := build (
    data["action"] ::= "wallet_contains" ;;
    data["wallet"] ::= wallet ;;
    data["account"] ::= account) in
  self_post data.

Definition wallet_create (seed : option string) : Py R :=
  let seed := seed ?: "" in
  let* data := build (
    data["action"] ::= "wallet_create" ;;
    If seed then: data["seed"] ::= seed) in
  self_post data.

Definition wallet_destroy (wallet : string) : Py R :=
  let* data := build (
    data["action"] ::= "wallet_destroy" ;;
    data["wallet"] ::= wallet) in
  self_post data.

Definition wallet_export (wallet : string) : Py R :=
  let* data := build (
    data["action"] ::= "wallet_export" ;;
    data["wallet"] ::= wallet) in
  self_post data.

Definition wallet_frontiers (wallet : string) : Py R :=
  let* data := build (
    data["action"] ::= "wallet_frontiers" ;;
    data["wallet"] ::= wallet) in
  self_post data.

Definition wallet_history (wallet : string) (modified_since : option Z) : Py R :=
  let modified_since := modified_since ?: 0 in
  let* data := build (
    data["action"] ::= "wallet_history" ;;
    data["wallet"] ::= wallet ;;
    If modified_since then: data["modified_since"] ::= modified_since) in
  self_post data.

Definition wallet_info (wallet : string) : Py R :=
  let* data := build (
    data["action"] ::= "wallet_info" ;;
    data["wallet"] ::= wallet) in
  self_post data.

Definition wallet_ledger (wallet : string) (representative : option bool)
    (weight : option bool) (receivable : option bool)
    (modified_since : option string) : Py R :=
  let representative := representative ?: false in
  let weight := weight ?: false in
  let receivable := receivable ?: false in
  let modified_since := modified_since ?: "" in
  let* data := build (
    data["action"] ::= "wallet_ledger" ;;
    data["wallet"] ::= wallet ;;
    If representative then: data["representative"] ::= true ;;
    If weight then: data["weight"] ::= true ;;
    If receivable then: data["receivable"] ::= true ;;
    If modified_since then: data["modified_since"] ::= modified_since) in
  self_post data.

Definition wallet_lock (wallet : string) : Py R :=
  let* data := build (
    data["action"] ::= "wallet_lock" ;;
    data["wallet"] ::= wallet) in
  self_post data.

Definition wallet_locked (wallet : string) : Py R :=
  let* data := build (
    data["action"] ::= "wallet_locked" ;;
    data["wallet"] ::= wallet) in
  self_post data.

Definition wallet_receivable (wallet : string) (count : option Z)
    (threshold : option Z) (source : option bool) (include_active : option bool)
    (min_version : option bool) (include_only_confirmed : option bool) : Py R :=
  let count := count ?: 1 in
  let threshold := threshold ?: 0 in
  let source := source ?: false in
  let include_active := include_active ?: false in
  let min_version := min_version ?: false in
  let include_only_confirmed := include_only_confirmed ?: true in
  let* data := build (
    data["action"] ::= "wallet_receivable" ;;
    data["wallet"] ::= wallet ;;
    data["count"] ::= count ;;
    If threshold then: data["threshold"] ::= threshold ;;
    If source then: data["source"] ::= true ;;
    If include_active then: data["include_active"] ::= true ;;
    If min_version then: data["min_version"] ::= true ;;
    If (negb include_only_confirmed) then: data["include_only_confirmed"] ::= false) in
  self_post data.

Definition wallet_representative (wallet : string) : Py R :=
  let* data := build (
    data["action"] ::= "wallet_representative" ;;
    data["wallet"] ::= wallet) in
  self_post data.

Definition wallet_representative_set (wallet : string) (representative : string)
    (update_existing_accounts : option bool) : Py R :=
  let update_existing_accounts := update_existing_accounts ?: false in
  let* data := build (
    data["action"] ::= "wallet_representative_set" ;;
    data["wallet"] ::= wallet ;;
    data["representative"] ::= representative ;;
    If update_existing_accounts then: data["update_existing_accounts"] ::= true) in
  self_post data.

Definition wallet_republish (wallet : string) (count : option Z) : Py R :=
  let count := count ?: 1 in
  let* data := build (
    data["action"] ::= "wallet_republish" ;;
    data["wallet"] ::= wallet ;;
    data["count"] ::= count) in
  self_post data.

Definition wallet_work_get (wallet : string) : Py R :=
  let* data := build (
    data["action"] ::= "wallet_work_get" ;;
    data["wallet"] ::= wallet) in
  self_post data.

Definition work_get (wallet : string) (account : string) : Py R :=
  let* data := build (
    data["action"] ::= "work_get" ;;
    data["wallet"] ::= wallet ;;
    data["account"] ::= account) in
  self_post data.

Definition work_set (wallet : string) (account : string) (work : string) : Py R :=
  let* data := build (
    data["action"] ::= "work_set" ;;
    data["wallet"] ::= wallet ;;
    data["account"] ::= account ;;
    data["work"] ::= work) in
  self_post data.

Definition nano_to_raw (amount : string) : Py R :=
  let* data := build (
    data["action"] ::= "nano_to_raw" ;;
    data["amount"] ::= amount) in
  self_post data.

Definition raw_to_nano (amount : string) : Py R :=
  let* data := build (
    data["action"] ::= "raw_to_nano" ;;
    data["amount"] ::= amount) in
  self_post data.

End Methods.

Section Calls.
Context {codec : JsonCodec}.

Definition invoke {R : Type} (post : ref -> Py R) (c : call) : Py R :=
  match c with
  | call_account_balance account include_only_confirmed =>
      account_balance post account include_only_confirmed
  | call_account_block_count account => account_block_count post account
  | call_account_get key => account_get post key
  | call_account_history account count raw head offset reverse account_filter =>
      account_history post account count raw head offset reverse account_filter
  | call_account_info account include_confirmed representative weight pending =>
      account_info post account include_confirmed representative weight pending
  | call_account_key account => account_key post account
  | call_account_representative account => account_representative post account
  | call_account_weight account => account_weight post account
  | call_accounts_balances accounts include_only_confirmed =>
      accounts_balances post accounts include_only_confirmed
  | call_accounts_frontiers accounts => accounts_frontiers post accounts
  | call_accounts_receivable accounts count threshold source include_active sorting
      include_only_confirmed =>
      accounts_receivable post accounts count threshold source include_active sorting
          include_only_confirmed
  | call_accounts_representatives accounts => accounts_representatives post accounts
  | call_available_supply => available_supply post
  | call_block_account _hash => block_account post _hash
  | call_block_confirm _hash => block_confirm post _hash
  | call_block_count include_cemented => block_count post include_cemented
  | call_block_create balance representative previous wallet account key source
      destination link work version json_block difficulty =>
      block_create post balance representative previous wallet account key source
          destination link work version json_block difficulty
  | call_block_hash block json_block => block_hash post block json_block
  | call_block_info _hash json_block => block_info post _hash json_block
  | call_blocks hashes json_block => blocks post hashes json_block
  | call_blocks_info hashes pending source receive_hash json_block include_not_found =>
      blocks_info post hashes pending source receive_hash json_block include_not_found
  | call_bootstrap address port bypass_frontier_confirmation _id =>
      bootstrap post address port bypass_frontier_confirmation _id
  | call_bootstrap_any force _id account => bootstrap_any post force _id account
  | call_bootstrap_lazy hash_ force _id => bootstrap_lazy post hash_ force _id
  | call_bootstrap_status => bootstrap_status post
  | call_chain block count offset reverse => chain post block count offset reverse
  | call_confirmation_active announcements => confirmation_active post announcements
  | call_confirmation_height_currently_processing =>
      confirmation_height_currently_processing post
  | call_confirmation_history _hash => confirmation_history post _hash
  | call_confirmation_info root contents representatives json_block =>
      confirmation_info post root contents representatives json_block
  | call_confirmation_quorum peer_details => confirmation_quorum post peer_details
  | call_database_txn_tracker min_read_time min_write_time =>
      database_txn_tracker post min_read_time min_write_time
  | call_delegators account threshold count start =>
      delegators post account threshold count start
  | call_delegators_count account => delegators_count post account
  | call_deterministic_key seed index => deterministic_key post seed index
  | call_election_statistics => election_statistics post
  | call_epoch_upgrade epoch key count threads =>
      epoch_upgrade post epoch key count threads
  | call_frontier_count => frontier_count post
  | call_frontiers account count => frontiers post account count
  | call_keepalive address port => keepalive post address port
  | call_key_create => key_create post
  | call_key_expand key => key_expand post key
  | call_ledger account count representative weight receivable modified_since sorting
      threshold =>
      ledger post account count representative weight receivable modified_since sorting
          threshold
  | call_node_id => node_id post
  | call_node_id_delete => node_id_delete post
  | call_peers peer_details => peers post peer_details
  | call_populate_backlog => populate_backlog post
  | call_process block force subtype json_block watch_work _async =>
      process post block force subtype json_block watch_work _async
  | call_receivable account count threshold source include_active min_version sorting
      include_only_confirmed =>
      receivable post account count threshold source include_active min_version sorting
          include_only_confirmed
  | call_receivable_exists _hash include_active include_only_confirmed =>
      receivable_exists post _hash include_active include_only_confirmed
  | call_representatives count sorting => representatives post count sorting
  | call_representatives_online weight accounts =>
      representatives_online post weight accounts
  | call_republish _hash count sources destinations =>
      republish post _hash count sources destinations
  | call_sign key wallet account block _hash json_block =>
      sign post key wallet account block _hash json_block
  | call_stats _type => stats post _type
  | call_stats_clear => stats_clear post
  | call_stop => stop post
  | call_successors block count offset reverse =>
      successors post block count offset reverse
  | call_telemetry raw address port => telemetry post raw address port
  | call_validate_account_number account => validate_account_number post account
  | call_version => version post
  | call_unchecked json_block count => unchecked post json_block count
  | call_unchecked_clear => unchecked_clear post
  | call_unchecked_get _hash json_block => unchecked_get post _hash json_block
  | call_unchecked_keys key count json_block => unchecked_keys post key count json_block
  | call_unopened account count threshold => unopened post account count threshold
  | call_uptime => uptime post
  | call_work_cancel _hash => work_cancel post _hash
  | call_work_generate _hash use_peers difficulty multiplier account version block
      json_block =>
      work_generate post _hash use_peers difficulty multiplier account version block
          json_block
  | call_work_peer_add address port => work_peer_add post address port
  | call_work_peers => work_peers post
  | call_work_peers_clear => work_peers_clear post
  | call_work_validate work _hash difficulty multiplier version =>
      work_validate post work _hash difficulty multiplier version
  | call_account_create wallet index work => account_create post wallet index work
  | call_account_list wallet => account_list post wallet
  | call_account_move wallet source accounts => account_move post wallet source accounts
  | call_account_remove wallet account => account_remove post wallet account
  | call_account_representative_set wallet account representative work =>
      account_representative_set post wallet account representative work
  | call_accounts_create wallet count work => accounts_create post wallet count work
  | call_password_change wallet password => password_change post wallet password
  | call_password_enter wallet password => password_enter post wallet password
  | call_password_valid wallet => password_valid post wallet
  | call_receive wallet account block work => receive post wallet account block work
  | call_receive_minimum => receive_minimum post
  | call_receive_minimum_set amount => receive_minimum_set post amount
  | call_search_receivable wallet => search_receivable post wallet
  | call_search_receivable_all => search_receivable_all post
  | call_send wallet source destination amount _id work =>
      send post wallet source destination amount _id work
  | call_wallet_add wallet key work => wallet_add post wallet key work
  | call_wallet_add_watch wallet accounts => wallet_add_watch post wallet accounts
  | call_wallet_balances wallet threshold => wallet_balances post wallet threshold
  | call_wallet_change_seed wallet seed count =>
      wallet_change_seed post wallet seed count
  | call_wallet_contains wallet account => wallet_contains post wallet account
  | call_wallet_create seed => wallet_create post seed
  | call_wallet_destroy wallet => wallet_destroy post wallet
  | call_wallet_export wallet => wallet_export post wallet
  | call_wallet_frontiers wallet => wallet_frontiers post wallet
  | call_wallet_history wallet modified_since =>
      wallet_history post wallet modified_since
  | call_wallet_info wallet => wallet_info post wallet
  | call_wallet_ledger wallet representative weight receivable modified_since =>
      wallet_ledger post wallet representative weight receivable modified_since
  | call_wallet_lock wallet => wallet_lock post wallet
  | call_wallet_locked wallet => wallet_locked post wallet
  | call_wallet_receivable wallet count threshold source include_active min_version
      include_only_confirmed =>
      wallet_receivable post wallet count threshold source include_active min_version
          include_only_confirmed
  | call_wallet_representative wallet => wallet_representative post wallet
  | call_wallet_representative_set wallet representative update_existing_accounts =>
      wallet_representative_set post wallet representative update_existing_accounts
  | call_wallet_republish wallet count => wallet_republish post wallet count
  | call_wallet_work_get wallet => wallet_work_get post wallet
  | call_work_get wallet account => work_get post wallet account
  | call_work_set wallet account work => work_set post wallet account work
  | call_nano_to_raw amount => nano_to_raw post amount
  | call_raw_to_nano amount => raw_to_nano post amount
  end.

(** The content of the object a call hands to [self._post]. *)
Definition payload (c : call) : Py dict := invoke (sends spy) c.

End Calls.

End Store.

(** ** Vocabulary of the properties *)

(** What a statement does to one key: [sets k v s] if [k] holds [v] after
    [s], [keeps k s] if [s] leaves the entry of [k] as it found it. *)
Definition sets (k : string) (v : json) (s : stmt) : Prop :=
  forall d, lookup k (s d) = Some v.

Definition keeps (k : string) (s : stmt) : Prop :=
  forall d, lookup k (s d) = lookup k d.

(** A statement on the store [runs_as] a statement on values when it does
    to the newest object what the other does to a dictionary, and leaves the
    older objects as they are. *)
Definition runs_as (on_store : Store.stmt) (on_value : stmt) : Prop :=
  forall (objects : Store.store) (d : dict),
    on_store (List.length objects) (objects ++ [d])%list
    = (tt, (objects ++ [on_value d])%list).

(** The serialised payloads a trace puts on the wire, in order. *)
Fixpoint wire (t : list event) : list string :=
  match t with
  | [] => []
  | HttpPost _ _ _ body :: t' => body :: wire t'
  | WsText payload :: t' => payload :: wire t'
  | _ :: t' => wire t'
  end.

(** The success statuses of HTTP: the 2xx class. *)
Definition success_status (status : Z) : bool :=
  (200 <=? status) && (status <? 300).

(** A client in transactional mode holds a session; a client in streaming
    mode holds a socket.  [__init__] builds nothing else. *)
Definition transactional (self : RPC) : bool :=
  (__mode self =? "requests")%string &&
  match http_api self with Some _ => true | None => false end.

Definition streaming (self : RPC) : bool :=
  (__mode self =? "websockets")%string &&
  match wss_api self with Some _ => true | None => false end.

Definition open (self : RPC) : bool :=
  match wss_api self with
  | Some ws => websocket.connected ws
  | None => false
  end.

Definition constructed (self : RPC) : bool :=
  transactional self || streaming self.

Section Repeated.
Context {codec : JsonCodec}.

(** [disconnect] called [n] times in a row. *)
Fixpoint disconnect_times (n : nat) (self : RPC) : IO RPC :=
  match n with
  | O => ret self
  | S n' => let! self' := disconnect self in disconnect_times n' self'
  end.

End Repeated.





(** *** Sample data *)

Module sample.
Import pyjson.

(** A node that reports a failure inside a well-formed reply. *)
Definition soft_error : string :=
  dumps (JObj [("error", JStr "Account not found")]).

Definition failing_node : endpoint :=
  {| accepts := fun _ => true;
     on_get := fun _ => (200, soft_error);
     on_post := fun _ _ => (200, soft_error);
     on_message := fun _ => soft_error |}.

(** A node whose HTTP front end is down. *)
Definition broken_node : endpoint :=
  {| accepts := fun _ => true;
     on_get := fun _ => (503, "Service Unavailable");
     on_post := fun _ _ => (503, "Service Unavailable");
     on_message := fun _ => soft_error |}.

(** A node that answers with a status that is neither a success nor one
    of the error classes, and the report of a failure as body. *)
Definition odd_node : endpoint :=
  {| accepts := fun _ => true;
     on_get := fun _ => (399, soft_error);
     on_post := fun _ _ => (399, soft_error);
     on_message := fun _ => soft_error |}.

Definition http_client : RPC :=
  {| __mode := "requests";
     http_api := Some requests.session;
     wss_api := None;
     __url := "http://localhost:7076";
     __headers := None |}.

Definition ws_client : RPC :=
  {| __mode := "websockets";
     http_api := None;
     wss_api := Some {| websocket.connected := true |};
     __url := "ws://localhost:7078";
     __headers := None |}.

End sample.

(** * Properties *)

(** ** Dictionaries and statements *)

Lemma lookup_setitem_same (k : string) (v : json) (d : dict) :
  lookup k (setitem k v d) = Some v.
Proof.
  induction d as [|[k' v'] d IH]; simpl.
  - now rewrite String.eqb_refl.
  - destruct (String.eqb k' k) eqn:E; simpl; rewrite E; auto.
Qed.

Lemma lookup_setitem_other (k k' : string) (v : json) (d : dict) :
  String.eqb k' k = false -> lookup k (setitem k' v d) = lookup k d.
Proof.
  intros Hk. induction d as [|[k0 v0] d IH]; simpl.
  - now rewrite Hk.
  - destruct (String.eqb k0 k') eqn:E; simpl.
    + apply String.eqb_eq in E. subst k0. now rewrite Hk.
    + now rewrite IH.
Qed.

Section Frame.
Context {A : Type} `{Truthy A}.

Lemma keeps_assign {B} `{ToJson B} (k k' : string) (v : B) :
  String.eqb k' k = false -> keeps k (assign k' v).
Proof. intros Hk d. unfold assign. now apply lookup_setitem_other. Qed.

Lemma keeps_seq (k : string) (s1 s2 : stmt) :
  keeps k s1 -> keeps k s2 -> keeps k (seq s1 s2).
Proof. intros H1 H2 d. unfold seq. now rewrite H2, H1. Qed.

Lemma keeps_If (k : string) (c : A) (s : stmt) :
  keeps k s -> keeps k (if_then c s).
Proof. intros Hs d. unfold if_then. destruct (truthy c); auto. Qed.

Lemma keeps_IfElse (k : string) (c : A) (s1 s2 : stmt) :
  keeps k s1 -> keeps k s2 -> keeps k (if_else c s1 s2).
Proof. intros H1 H2 d. unfold if_else. destruct (truthy c); auto. Qed.

Lemma sets_assign {B} `{ToJson B} (k : string) (v : B) (j : json) :
  to_json v = j -> sets k j (assign k v).
Proof. intros <- d. unfold assign. apply lookup_setitem_same. Qed.

Lemma sets_seq_last (k : string) (v : json) (s1 s2 : stmt) :
  sets k v s2 -> sets k v (seq s1 s2).
Proof. intros H2 d. unfold seq. apply H2. Qed.

Lemma sets_seq_keep (k : string) (v : json) (s1 s2 : stmt) :
  sets k v s1 -> keeps k s2 -> sets k v (seq s1 s2).
Proof. intros H1 H2 d. unfold seq. now rewrite H2. Qed.

Lemma sets_If_true (k : string) (v : json) (c : A) (s : stmt) :
  truthy c = true -> sets k v s -> sets k v (if_then c s).
Proof. intros Hc Hs d. unfold if_then. rewrite Hc. apply Hs. Qed.

Lemma sets_IfElse_true (k : string) (v : json) (c : A) (s1 s2 : stmt) :
  truthy c = true -> sets k v s1 -> sets k v (if_else c s1 s2).
Proof. intros Hc Hs d. unfold if_else. rewrite Hc. apply Hs. Qed.

Lemma keeps_IfElse_true (k : string) (c : A) (s1 s2 : stmt) :
  truthy c = true -> keeps k s1 -> keeps k (if_else c s1 s2).
Proof. intros Hc Hs d. unfold if_else. rewrite Hc. apply Hs. Qed.

Lemma keeps_If_false (k : string) (c : A) (s : stmt) :
  truthy c = false -> keeps k (if_then c s).
Proof. intros Hc d. unfold if_then. now rewrite Hc. Qed.

End Frame.

Lemma lookup_build_sets (k : string) (v : json) (body : stmt) :
  sets k v body -> lookup k (build body) = Some v.
Proof. intros Hs. apply Hs. Qed.

Lemma lookup_build_keeps (k : string) (body : stmt) :
  keeps k body -> lookup k (build body) = None.
Proof. intros Hs. unfold build. now rewrite Hs. Qed.

(** [keeps] goals are decided by the shape of the statement, helped by the
    truth values of conditions found among the hypotheses; [sets] goals by
    finding the last assignment to the key. *)
Ltac frame :=
  repeat lazymatch goal with
  | |- keeps _ (seq _ _) => apply keeps_seq
  | |- keeps _ (if_then _ _) =>
      first [ apply keeps_If_false; assumption | apply keeps_If ]
  | |- keeps _ (if_else _ _ _) =>
      first [ apply keeps_IfElse_true; [ assumption | ] | apply keeps_IfElse ]
  | |- keeps _ (assign _ _) => apply keeps_assign; reflexivity
  end.

Ltac assigned :=
  lazymatch goal with
  | |- sets _ _ (assign _ _) => apply sets_assign; reflexivity
  | |- sets _ _ (if_then _ _) => apply sets_If_true; [ assumption | assigned ]
  | |- sets _ _ (if_else _ _ _) => apply sets_IfElse_true; [ assumption | assigned ]
  | |- sets _ _ (seq _ _) =>
      first [ apply sets_seq_last; assigned
            | apply sets_seq_keep; [ assigned | solve [ frame ] ] ]
  end.

Ltac present := apply lookup_build_sets; assigned.
Ltac absent := apply lookup_build_keeps; solve [ frame ].

Lemma truthy_int (z : Z) : z <> 0 -> truthy z = true.
Proof.
  intros Hz. unfold truthy, Truthy_int.
  destruct (Z.eqb_spec z 0); [contradiction | reflexivity].
Qed.

Lemma truthy_str (s : string) : s <> "" -> truthy s = true.
Proof. intros Hs. destruct s; [contradiction | reflexivity]. Qed.

Lemma is_in_singleton (x y : string) : is_in x [y] = String.eqb x y.
Proof. unfold is_in. simpl. apply orb_false_r. Qed.

(** ** Payloads of single commands *)

(** C4. [account_balance] with [include_only_confirmed] left at its default
    [True] (or passed as [True]) builds exactly the action and the account;
    with [False] it builds the same two fields followed by
    ["include_only_confirmed": false]. *)
Theorem account_balance_include_only_confirmed (account : string) :
  account_balance spy account None =
    [("action", JStr "account_balance"); ("account", JStr account)]
  /\ account_balance spy account (Some true) =
    [("action", JStr "account_balance"); ("account", JStr account)]
  /\ account_balance spy account (Some false) =
    [("action", JStr "account_balance"); ("account", JStr account);
     ("include_only_confirmed", JBool false)].
Proof. repeat split. Qed.

(** C3. When [work_generate] (and likewise [work_validate]) is given both a
    non-empty [difficulty] and a non-zero [multiplier], the payload holds
    ["multiplier"] with the value given and no ["difficulty"]. *)
Theorem multiplier_suppresses_difficulty
    (work _hash difficulty : string) (multiplier : Z)
    (use_peers json_block : option bool) (account version block : option string) :
  difficulty <> "" ->
  multiplier <> 0 ->
  let generate := work_generate spy _hash use_peers (Some difficulty)
                    (Some multiplier) account version block json_block in
  let validate := work_validate spy work _hash (Some difficulty)
                    (Some multiplier) version in
  (lookup "multiplier" generate = Some (JInt multiplier)
   /\ lookup "difficulty" generate = None)
  /\ (lookup "multiplier" validate = Some (JInt multiplier)
      /\ lookup "difficulty" validate = None).
Proof.
  intros Hd Hm.
  apply truthy_str in Hd. apply truthy_int in Hm.
  cbv beta zeta iota delta [work_generate work_validate spy or_default].
  repeat split; first [ present | absent ].
Qed.

Lemma multiplier_suppresses_difficulty_witness :
  lookup "multiplier"
    (work_generate spy "ABCD" None (Some "ffff") (Some 4) None None None None)
  = Some (JInt 4)
  /\ lookup "difficulty"
    (work_generate spy "ABCD" None (Some "ffff") (Some 4) None None None None)
  = None.
Proof.
  apply (multiplier_suppresses_difficulty "" "ABCD" (difficulty := "ffff")
           (multiplier := 4) None None None None None).
  - discriminate.
  - lia.
Defined.

(** C5. [republish] with a non-zero [sources] puts both ["sources"], with
    the value given, and ["count"], with the value given or its default 1,
    in the payload. *)
Theorem republish_sources_with_count
    (_hash : string) (count : option Z) (sources : Z) (destinations : option Z) :
  sources <> 0 ->
  let data := republish spy _hash count (Some sources) destinations in
  lookup "sources" data = Some (JInt sources)
  /\ lookup "count" data = Some (JInt (count ?: 1)).
Proof.
  intros Hs. apply truthy_int in Hs.
  cbv beta zeta iota delta [republish spy].
  change (Some sources ?: 0) with sources.
  destruct (truthy (destinations ?: 0)) eqn:Hdest; split; present.
Qed.

Lemma republish_sources_with_count_witness :
  lookup "sources" (republish spy "XYZ" None (Some 2) None) = Some (JInt 2)
  /\ lookup "count" (republish spy "XYZ" None (Some 2) None) = Some (JInt 1).
Proof.
  apply (republish_sources_with_count "XYZ" None (sources := 2) None). lia.
Defined.

(** C10. In [block_create], [work_generate] and [work_validate] a version
    given by the caller reaches the payload exactly when it is the string
    ["work_1"]; any other version is left out, and nothing is raised. *)
Theorem version_only_work_1
    (balance representative previous work _hash version : string)
    (wallet account key source destination link work' difficulty block : option string)
    (json_block use_peers : option bool) (multiplier : option Z) :
  let expected :=
    if String.eqb version "work_1" then Some (JStr "work_1") else None in
  lookup "version"
    (block_create spy balance representative previous wallet account key source
       destination link work' (Some version) json_block difficulty) = expected
  /\ lookup "version"
    (work_generate spy _hash use_peers difficulty multiplier account
       (Some version) block json_block) = expected
  /\ lookup "version"
    (work_validate spy work _hash difficulty multiplier (Some version)) = expected.
Proof.
  cbv beta zeta iota delta [block_create work_generate work_validate spy].
  change (Some version ?: "work_1") with version.
  assert (Hin : truthy (is_in version ["work_1"]) = String.eqb version "work_1")
    by apply is_in_singleton.
  destruct (String.eqb_spec version "work_1") as [-> | Hv].
  - repeat split; present.
  - repeat split; absent.
Qed.

(** The scenarios the documentation of the protocol walks through. *)
Example republish_sources_2 :
  republish spy "XYZ" None (Some 2) None
  = [("action", JStr "republish"); ("hash", JStr "XYZ"); ("sources", JInt 2);
     ("count", JInt 1)].
Proof. reflexivity. Qed.

Example work_generate_both :
  work_generate spy "ABCD" None (Some "ffff") (Some 4) None None None None
  = [("action", JStr "work_generate"); ("hash", JStr "ABCD");
     ("multiplier", JInt 4); ("version", JStr "work_1")].
Proof. reflexivity. Qed.

Example block_create_other_version :
  block_create spy "1" "nano_rep" "PREV" None None (Some "KEY") None None None None
    (Some "work_2") None None
  = [("action", JStr "block_create"); ("type", JStr "state"); ("balance", JStr "1");
     ("key", JStr "KEY"); ("representative", JStr "nano_rep");
     ("previous", JStr "PREV")].
Proof. reflexivity. Qed.

Example payload_survives_the_wire :
  pyjson.decode (pyjson.encode (JObj (account_balance spy "nano_1abc" (Some false))))
  = Some (JObj (account_balance spy "nano_1abc" (Some false))).
Proof. reflexivity. Qed.

(** ** Construction *)

Lemma slice_to_prefix (p url : string) :
  String.eqb (slice_to (String.length p) url) p = prefix p url.
Proof.
  unfold slice_to.
  destruct (prefix p url) eqn:E.
  - apply prefix_correct in E. now apply String.eqb_eq.
  - apply String.eqb_neq. intros Heq.
    apply prefix_correct in Heq. congruence.
Qed.

(** C2. A connection string that starts with none of [http://], [https://],
    [ws://] and [wss://] makes the constructor raise an error whose message
    holds the string, and the trace of the constructor is empty: nothing
    was sent to the node, no connection was attempted. *)
Theorem unknown_scheme_rejected
    (node : endpoint) (url : string) (headers : headers_t) (tor : bool) :
  prefix "http://" url = false ->
  prefix "https://" url = false ->
  prefix "ws://" url = false ->
  prefix "wss://" url = false ->
  __init__ node url headers tor
  = (Raise (AttributeError ("Invalid url: " ++ url)), []).
Proof.
  intros H1 H2 H3 H4. unfold __init__.
  rewrite (slice_to_prefix "http://"), (slice_to_prefix "https://"),
    (slice_to_prefix "ws://"), (slice_to_prefix "wss://").
  now rewrite H1, H2, H3, H4.
Qed.

Lemma unknown_scheme_rejected_witness :
  __init__ sample.failing_node "ftp://node.example" None false
  = (Raise (AttributeError "Invalid url: ftp://node.example"), []).
Proof.
  apply (unknown_scheme_rejected sample.failing_node "ftp://node.example" None false);
    reflexivity.
Defined.

(** What [__init__] returns is a client in one of the two modes, with the
    resource of that mode in place. *)
Lemma init_constructed
    (node : endpoint) (url : string) (headers : headers_t) (tor : bool) (self : RPC) :
  outcome (__init__ node url headers tor) = Ok self -> constructed self = true.
Proof.
  unfold __init__, outcome.
  destruct (_ || _).
  - simpl. intros [= <-]. reflexivity.
  - destruct (_ || _).
    + unfold websocket.create_connection, bind, emit, ret, raise.
      destruct tor; simpl; destruct (accepts node url); simpl;
        intros [= <-] || discriminate; reflexivity.
    + discriminate.
Qed.

(** ** Closing *)

Lemma disconnect_requests (self : RPC) :
  __mode self = "requests" -> disconnect self = (Ok self, []).
Proof. intros Hm. unfold disconnect. now rewrite Hm. Qed.

(** C9. On a client in transactional mode [disconnect] changes nothing and
    sends nothing: it returns the client as it was (same session, URL,
    headers and mode).  On every client the constructor can return,
    [disconnect] succeeds, and on the client it leaves behind any number of
    further calls succeed, change nothing and send nothing. *)
Theorem disconnect_idempotent (self : RPC) :
  constructed self = true ->
  (__mode self = "requests" -> disconnect self = (Ok self, []))
  /\ exists closed : RPC,
       outcome (disconnect self) = Ok closed
       /\ constructed closed = true
       /\ forall n : nat, disconnect_times n closed = (Ok closed, []).
Proof.
  intros Hc. split; [apply disconnect_requests|].
  unfold constructed, transactional, streaming in Hc.
  apply orb_true_iff in Hc as [H | H]; apply andb_true_iff in H as [Hm Hr];
    apply String.eqb_eq in Hm.
  - exists self. rewrite (disconnect_requests self Hm). repeat split.
    + unfold constructed, transactional. now rewrite Hm, Hr.
    + induction n as [|n IH]; [reflexivity|].
      cbn [disconnect_times]. rewrite (disconnect_requests self Hm).
      unfold bind. now rewrite IH.
  - destruct self as [mode http wss url headers]; simpl in *. subst mode.
    destruct wss as [[conn]|]; [|discriminate].
    exists {| __mode := "websockets"; http_api := http;
              wss_api := Some {| websocket.connected := false |};
              __url := url; __headers := headers |}.
    repeat split.
    + destruct conn; reflexivity.
    + induction n as [|n IH]; [reflexivity|].
      simpl in *. now rewrite IH.
Qed.

Lemma disconnect_idempotent_witness :
  (__mode sample.ws_client = "requests" ->
   disconnect sample.ws_client = (Ok sample.ws_client, []))
  /\ exists closed : RPC,
       outcome (disconnect sample.ws_client) = Ok closed
       /\ constructed closed = true
       /\ forall n : nat, disconnect_times n closed = (Ok closed, []).
Proof. apply (disconnect_idempotent sample.ws_client). reflexivity. Defined.

(** ** Sending *)

Section Sending.
Context {codec : JsonCodec}.

(** What [_post] writes: one serialised payload when the client can send,
    nothing otherwise; the node's answers play no part. *)
Lemma wire_post (node : endpoint) (self : RPC) (data : dict) :
  wire (trace (_post node self data))
  = if transactional self || (streaming self && open self)
    then [dumps (JObj data)]
    else [].
Proof.
  unfold _post, transactional, streaming, open, trace.
  destruct self as [mode http wss url headers]; simpl.
  destruct (String.eqb mode "requests") eqn:Hr.
  - destruct http as [sess|]; simpl.
    + unfold requests.post, requests.raise_for_status, requests.json.
      simpl. destruct (on_post node url _) as [status reply]. simpl.
      destruct (requests.is_error status); simpl; [reflexivity|].
      destruct (loads reply); reflexivity.
    + apply String.eqb_eq in Hr. subst mode. reflexivity.
  - destruct (String.eqb mode "websockets") eqn:Hw; simpl; [|reflexivity].
    destruct wss as [[conn]|]; simpl; [|reflexivity].
    unfold websocket.send, websocket.recv. simpl.
    destruct conn; simpl; [|reflexivity].
    destruct (loads _); reflexivity.
Qed.

(** C1. Whatever payload is sent: over HTTP, a reply with an error status
    makes [_post] raise [HTTPError] holding that status and the body; over
    HTTP with another status, and over an open websocket, a reply that
    decodes to a mapping with an ["error"] entry is returned as that
    mapping, entry included, and nothing is raised. *)
Theorem soft_errors_are_returned (node : endpoint) (self : RPC) (data : dict) :
  (forall (session : requests.Session) (status : Z) (body : string),
      __mode self = "requests" ->
      http_api self = Some session ->
      on_post node (__url self) (dumps (JObj data)) = (status, body) ->
      requests.is_error status = true ->
      outcome (_post node self data) = Raise (HTTPError status body))
  /\ (forall (session : requests.Session) (status : Z) (body : string)
        (reply : dict) (message : json),
      __mode self = "requests" ->
      http_api self = Some session ->
      on_post node (__url self) (dumps (JObj data)) = (status, body) ->
      requests.is_error status = false ->
      loads body = Some (JObj reply) ->
      lookup "error" reply = Some message ->
      outcome (_post node self data) = Ok (JObj reply))
  /\ (forall (socket : websocket.WebSocket) (reply : dict) (message : json),
      __mode self = "websockets" ->
      wss_api self = Some socket ->
      websocket.connected socket = true ->
      loads (on_message node (dumps (JObj data))) = Some (JObj reply) ->
      lookup "error" reply = Some message ->
      outcome (_post node self data) = Ok (JObj reply)).
Proof.
  repeat split.
  - intros session status body Hm Hs Hp He.
    unfold _post. rewrite Hm, Hs. simpl.
    unfold requests.post. simpl. rewrite Hp. simpl.
    unfold requests.raise_for_status. simpl. now rewrite He.
  - intros session status body reply message Hm Hs Hp He Hl _.
    unfold _post. rewrite Hm, Hs. simpl.
    unfold requests.post. simpl. rewrite Hp. simpl.
    unfold requests.raise_for_status, requests.json. simpl.
    rewrite He. simpl. now rewrite Hl.
  - intros socket reply message Hm Hs Hc Hl _.
    unfold _post. rewrite Hm, Hs. simpl.
    unfold websocket.send, websocket.recv. rewrite Hc. simpl.
    now rewrite Hl.
Qed.

(** C8. A client in transactional mode and a client in streaming mode with
    its socket open put the same bytes on the wire for the same payload:
    its serialisation, once. *)
Theorem transports_send_same_bytes
    (node node' : endpoint) (http ws : RPC) (data : dict) :
  transactional http = true ->
  streaming ws = true ->
  open ws = true ->
  wire (trace (_post node http data)) = wire (trace (_post node' ws data))
  /\ wire (trace (_post node http data)) = [dumps (JObj data)].
Proof.
  intros Hh Hw Ho. rewrite !wire_post, Hh, Hw, Ho.
  simpl. now rewrite orb_true_r.
Qed.

(** ** All commands *)

Lemma invoke_posts_payload (c : call) (R : Type) (post : dict -> R) :
  invoke post c = post (payload c).
Proof. destruct c; reflexivity. Qed.

(** *** Building on the store *)

Lemma update_newest (f : dict -> dict) (objects : Store.store) (d : dict) :
  Store.update (List.length objects) f (objects ++ [d])%list
  = (objects ++ [f d])%list.
Proof. induction objects as [|d' objects IH]; simpl; congruence. Qed.

Lemma nth_newest (objects : Store.store) (d : dict) :
  nth (List.length objects) (objects ++ [d])%list [] = d.
Proof. induction objects as [|d' objects IH]; simpl; auto. Qed.

Lemma runs_as_assign {B} `{ToJson B} (k : string) (v : B) :
  runs_as (Store.assign k v) (assign k v).
Proof.
  intros objects d. unfold Store.assign, assign. now rewrite update_newest.
Qed.

Lemma runs_as_seq (S1 S2 : Store.stmt) (s1 s2 : stmt) :
  runs_as S1 s1 -> runs_as S2 s2 -> runs_as (Store.seq S1 S2) (seq s1 s2).
Proof.
  intros H1 H2 objects d. unfold Store.seq, Store.bind, seq.
  now rewrite H1, H2.
Qed.

Lemma runs_as_If {A} `{Truthy A} (c : A) (S1 : Store.stmt) (s1 : stmt) :
  runs_as S1 s1 -> runs_as (Store.if_then c S1) (if_then c s1).
Proof.
  intros H1 objects d. unfold Store.if_then, if_then.
  destruct (truthy c); [apply H1 | reflexivity].
Qed.

Lemma runs_as_IfElse {A} `{Truthy A} (c : A) (S1 S2 : Store.stmt) (s1 s2 : stmt) :
  runs_as S1 s1 -> runs_as S2 s2 ->
  runs_as (Store.if_else c S1 S2) (if_else c s1 s2).
Proof.
  intros H1 H2 objects d. unfold Store.if_else, if_else.
  destruct (truthy c); [apply H1 | apply H2].
Qed.

(** A body run on the store adds one object, the dictionary the body builds
    from nothing, and touches no other. *)
Lemma build_on_store (on_store : Store.stmt) (on_value : stmt)
    (objects : Store.store) :
  runs_as on_store on_value ->
  Store.build on_store objects
  = (List.length objects, (objects ++ [build on_value])%list).
Proof. intros Hr. unfold Store.build. now rewrite Hr. Qed.

Lemma sends_newest {R : Type} (post : dict -> R) (objects : Store.store) (d : dict) :
  Store.sends post (List.length objects) (objects ++ [d])%list
  = (post d, (objects ++ [d])%list).
Proof. unfold Store.sends, Store.bind, Store.deref. now rewrite nth_newest. Qed.

Ltac translate :=
  repeat lazymatch goal with
  | |- runs_as (Store.seq _ _) _ => eapply runs_as_seq
  | |- runs_as (Store.if_then _ _) _ => eapply runs_as_If
  | |- runs_as (Store.if_else _ _ _) _ => eapply runs_as_IfElse
  | |- runs_as (Store.assign _ _) _ => apply runs_as_assign
  end.

Ltac head t :=
  lazymatch t with
  | ?f _ => head f
  | _ => t
  end.

(** Every method, run on any store, hands [self._post] an object whose
    content is the payload of the call, and leaves the store with that one
    object more. *)
Lemma invoke_on_store (c : call) (R : Type) (post : dict -> R)
    (objects : Store.store) :
  Store.invoke (Store.sends post) c objects
  = (post (payload c), (objects ++ [payload c])%list).
Proof.
  destruct c; unfold Store.invoke, payload, invoke;
    lazymatch goal with
    | |- ?run = (_ ?p, _) =>
        let M := head run in
        let m := head p in
        unfold M, m
    end;
    cbv beta zeta delta [spy]; unfold Store.bind;
    (erewrite build_on_store by translate);
    apply sends_newest.
Qed.

(** C6. Building the payload of a call is a function of the call alone.
    Run on any store of objects, a method makes one new dictionary, fills
    it, and hands it to [self._post]; the content it hands over is the same
    whatever the store held, so the same when the call is made a second time
    on the store the first left, and it is what the method computes from its
    arguments.  The run changes no object that existed: the store it leaves
    is the one it found with the payload added. *)
Theorem building_twice_gives_identical_payloads
    (c : call) (objects objects' : Store.store) :
  let first := Store.payload c objects in
  let second := Store.payload c (snd first) in
  fst second = fst first
  /\ fst (Store.payload c objects') = fst first
  /\ fst first = payload c
  /\ snd first = (objects ++ [payload c])%list
  /\ forall (R : Type) (post : dict -> R),
       fst (Store.invoke (Store.sends post) c objects) = post (payload c).
Proof.
  intros first second. subst first second. unfold Store.payload.
  repeat (rewrite invoke_on_store; cbn [fst snd]).
  repeat split. intros R post. now rewrite invoke_on_store.
Qed.

Ltac open_method :=
  unfold payload, invoke;
  lazymatch goal with
  | |- context [lookup _ ?p] => let m := head p in unfold m
  end;
  cbv beta zeta.

(** C7. The payload of every call holds ["action"] with the name of the
    method, and every argument the method requires under its wire name with
    the value the caller gave. *)
Theorem payload_has_action_and_required (c : call) :
  lookup "action" (payload c) = Some (JStr (method c))
  /\ Forall (fun field => lookup (fst field) (payload c) = Some (snd field))
       (required c).
Proof.
  destruct c; cbn [method required]; split;
    repeat lazymatch goal with
    | |- Forall _ [] => constructor
    | |- Forall _ (_ :: _) => constructor; [cbn [fst snd]|]
    end;
    open_method; present.
Qed.

End Sending.

#[local] Existing Instance pyjson.codec.

Lemma soft_errors_are_returned_witness :
  outcome (_post sample.broken_node sample.http_client [("action", JStr "version")])
  = Raise (HTTPError 503 "Service Unavailable")
  /\ outcome (_post sample.failing_node sample.http_client [("action", JStr "version")])
  = Ok (JObj [("error", JStr "Account not found")])
  /\ outcome (_post sample.failing_node sample.ws_client [("action", JStr "version")])
  = Ok (JObj [("error", JStr "Account not found")]).
Proof.
  split; [|split].
  - eapply (proj1 (soft_errors_are_returned sample.broken_node sample.http_client _));
      reflexivity.
  - eapply (proj1 (proj2 (soft_errors_are_returned sample.failing_node
                            sample.http_client _))); reflexivity.
  - eapply (proj2 (proj2 (soft_errors_are_returned sample.failing_node
                            sample.ws_client _))); reflexivity.
Defined.

(** C1, as it is worded, fails: a status outside the 2xx class need not
    raise.  [raise_for_status] raises for 4xx and 5xx only, so a reply with
    status 399 and a well-formed body is decoded and returned. *)
Lemma non_success_status_need_not_raise :
  ~ (forall (node : endpoint) (self : RPC) (data : dict)
            (session : requests.Session) (status : Z) (body : string),
        __mode self = "requests" ->
        http_api self = Some session ->
        on_post node (__url self) (dumps (JObj data)) = (status, body) ->
        success_status status = false ->
        outcome (_post node self data) = Raise (HTTPError status body)).
Proof.
  intros Hraises.
  specialize (Hraises sample.odd_node sample.http_client
                [("action", JStr "version")] requests.session 399
                sample.soft_error eq_refl eq_refl eq_refl eq_refl).
  discriminate Hraises.
Qed.

Lemma transports_send_same_bytes_witness :
  wire (trace (_post sample.failing_node sample.http_client
                 (account_balance spy "nano_1abc" None)))
  = wire (trace (_post sample.broken_node sample.ws_client
                   (account_balance spy "nano_1abc" None)))
  /\ wire (trace (_post sample.failing_node sample.http_client
                    (account_balance spy "nano_1abc" None)))
  = [dumps (JObj (account_balance spy "nano_1abc" None))].
Proof.
  apply (transports_send_same_bytes sample.failing_node sample.broken_node
           sample.http_client sample.ws_client); reflexivity.
Defined.

(** * Further properties *)

(** ** The life of a client *)

Section Lifecycle.
Context {codec : JsonCodec}.

Lemma prefix_head (a b : ascii) (p s : string) :
  prefix (String a p) (String b s) = true -> a = b.
Proof. simpl. destruct (ascii_dec a b); [auto | discriminate]. Qed.

Lemma websocket_url_not_http (url : string) :
  prefix "ws://" url = true \/ prefix "wss://" url = true ->
  prefix "http://" url = false /\ prefix "https://" url = false.
Proof.
  destruct url as [|a u]; [intros [H | H]; discriminate|].
  intros [H | H]; apply prefix_head in H; subst a; split; reflexivity.
Qed.

Lemma bind_ret {A B : Type} (a : A) (f : A -> IO B) : bind (ret a) f = f a.
Proof. unfold bind, ret. now destruct (f a). Qed.

Lemma bind_ok {A B : Type} (a : A) (t : list event) (f : A -> IO B) :
  bind (Ok a, t) f = (outcome (f a), (t ++ trace (f a))%list).
Proof. unfold bind, outcome, trace. now destruct (f a). Qed.

Lemma bind_emit {B : Type} (ev : event) (f : unit -> IO B) :
  bind (emit ev) f = (outcome (f tt), ev :: trace (f tt)).
Proof. unfold bind, emit, outcome, trace. now destruct (f tt). Qed.


Lemma trace_post_websockets
    (node : endpoint) (self : RPC) (socket : websocket.WebSocket) (data : dict) :
  __mode self = "websockets" ->
  wss_api self = Some socket ->
  websocket.connected socket = true ->
  trace (_post node self data) = [WsText (dumps (JObj data))].
Proof.
  intros Hm Hs Hc. unfold _post, trace. rewrite Hm, Hs. simpl.
  unfold websocket.send, websocket.recv. rewrite Hc. simpl.
  destruct (loads _); reflexivity.
Qed.


(** X2. Building a client from a [ws://] or [wss://] URL makes one
    connection attempt, to that URL, through the local SOCKS5 proxy when
    [tor] is set.  If the node accepts, a call then sends one text frame
    holding the serialised payload; if it refuses, construction raises and
    nothing is sent. *)
Theorem websocket_call_is_connect_then_send
    (node : endpoint) (url : string) (headers : headers_t) (tor : bool) (c : call) :
  prefix "ws://" url = true \/ prefix "wss://" url = true ->
  let proxy := if tor then Some ("localhost", 9050, "socks5h") else None in
  let run := let! self := __init__ node url headers tor in
             invoke (_post node self) c in
  (accepts node url = true ->
   trace run = [Connect url proxy; WsText (dumps (JObj (payload c)))])
  /\ (accepts node url = false ->
      run = (Raise (ConnectionError url), [Connect url proxy])).
Proof.
  intros Hp proxy run. subst proxy run.
  destruct (websocket_url_not_http url Hp) as [H1 H2].
  assert (Hw : (String.eqb (slice_to 5 url) "ws://"
                || String.eqb (slice_to 6 url) "wss://")%bool = true).
  { rewrite (slice_to_prefix "ws://"), (slice_to_prefix "wss://").
    destruct Hp as [-> | ->]; [reflexivity | apply orb_true_r]. }
  unfold __init__.
  rewrite (slice_to_prefix "http://"), (slice_to_prefix "https://"), H1, H2, Hw.
  cbn [orb]. unfold websocket.create_connection.
  split; intros Ha.
  - destruct tor; rewrite Ha, bind_emit; cbn [outcome trace ret fst snd];
      repeat (rewrite bind_ok; cbn [outcome trace ret fst snd app]);
      rewrite invoke_posts_payload;
      now erewrite trace_post_websockets by reflexivity.
  - destruct tor; rewrite Ha; reflexivity.
Qed.

End Lifecycle.


Lemma websocket_call_is_connect_then_send_witness :
  (accepts sample.failing_node "ws://node.example" = true ->
   trace (let! self := __init__ sample.failing_node "ws://node.example" None false in
          invoke (_post sample.failing_node self) (call_version))
   = [Connect "ws://node.example" None;
      WsText (dumps (JObj (payload call_version)))])
  /\ (accepts sample.failing_node "ws://node.example" = false ->
      (let! self := __init__ sample.failing_node "ws://node.example" None false in
       invoke (_post sample.failing_node self) (call_version))
      = (Raise (ConnectionError "ws://node.example"),
         [Connect "ws://node.example" None])).
Proof.
  apply (websocket_call_is_connect_then_send sample.failing_node "ws://node.example"
           None false call_version).
  left. reflexivity.
Defined.

(** ** Replies *)

Section Replies.
Context {codec : JsonCodec}.

(** X3. A reply that passes the status check (over HTTP), or any message
    (over an open websocket), is handed to the decoder and nothing else:
    whatever value it decodes to is returned, mapping or not, and a reply
    that does not decode raises [JSONDecodeError]. *)
Theorem reply_is_decoded_or_raises (node : endpoint) (self : RPC) (data : dict) :
  let decoded (text : string) : result json :=
    match loads text with
    | Some value => Ok value
    | None => Raise (JSONDecodeError text)
    end in
  (forall (session : requests.Session) (status : Z) (body : string),
      __mode self = "requests" ->
      http_api self = Some session ->
      on_post node (__url self) (dumps (JObj data)) = (status, body) ->
      requests.is_error status = false ->
      outcome (_post node self data) = decoded body)
  /\ (forall socket : websocket.WebSocket,
      __mode self = "websockets" ->
      wss_api self = Some socket ->
      websocket.connected socket = true ->
      outcome (_post node self data)
      = decoded (on_message node (dumps (JObj data)))).
Proof.
  intros decoded. subst decoded. split.
  - intros session status body Hm Hs Hp He.
    unfold _post. rewrite Hm, Hs. simpl.
    unfold requests.post. simpl. rewrite Hp. simpl.
    unfold requests.raise_for_status, requests.json. simpl.
    rewrite He. simpl. now destruct (loads body).
  - intros socket Hm Hs Hc.
    unfold _post. rewrite Hm, Hs. simpl.
    unfold websocket.send, websocket.recv. rewrite Hc. simpl.
    now destruct (loads _).
Qed.

(** X4. [_get] only works over HTTP.  On a client in any other mode it
    returns [None] and sends nothing.  On a client in requests mode it
    makes one GET to the client's URL with its headers and proxies, sends
    no payload, and treats the reply as [_post] does: an error status
    raises [HTTPError] with status and body, any other reply is decoded. *)
Theorem get_is_http_only (node : endpoint) (self : RPC) :
  (__mode self <> "requests" -> _get node self = (Ok JNull, []))
  /\ (forall (session : requests.Session) (status : Z) (body : string),
      __mode self = "requests" ->
      http_api self = Some session ->
      on_get node (__url self) = (status, body) ->
      _get node self
      = (if requests.is_error status then Raise (HTTPError status body)
         else match loads body with
              | Some value => Ok value
              | None => Raise (JSONDecodeError body)
              end,
         [HttpGet (__url self) (__headers self) (requests.proxies session)])).
Proof.
  split.
  - intros Hm. unfold _get.
    apply String.eqb_neq in Hm. now rewrite Hm.
  - intros session status body Hm Hs Hg.
    unfold _get. rewrite Hm, Hs. simpl.
    unfold requests.get. simpl. rewrite Hg. simpl.
    unfold requests.raise_for_status, requests.json. simpl.
    destruct (requests.is_error status); simpl; [reflexivity|].
    now destruct (loads body).
Qed.

End Replies.

(** ** After closing *)

Section AfterClosing.
Context {codec : JsonCodec}.

(** X5. On a websocket client whose socket is open, [disconnect] sends one
    close and keeps mode, URL and headers.  However many times it is called,
    that one close is all that is sent.  On the client it leaves behind,
    every call raises [WebSocketConnectionClosedException] and sends
    nothing. *)
Theorem disconnect_closes_once (self : RPC) :
  streaming self = true ->
  open self = true ->
  exists closed : RPC,
    disconnect self = (Ok closed, [WsClose])
    /\ __mode closed = __mode self
    /\ __url closed = __url self
    /\ __headers closed = __headers self
    /\ (forall n : nat, disconnect_times (S n) self = (Ok closed, [WsClose]))
    /\ (forall (node : endpoint) (c : call),
          invoke (_post node closed) c
          = (Raise WebSocketConnectionClosedException, [])).
Proof.
  unfold streaming, open.
  destruct self as [mode http wss url headers]; simpl.
  intros Hs Ho. apply andb_true_iff in Hs as [Hm _].
  apply String.eqb_eq in Hm. subst mode.
  destruct wss as [[conn]|]; [|discriminate]. simpl in Ho. subst conn.
  set (closed := {| __mode := "websockets"; http_api := http;
                    wss_api := Some {| websocket.connected := false |};
                    __url := url; __headers := headers |}).
  assert (Hagain : forall n, disconnect_times n closed = (Ok closed, [])).
  { induction n as [|n IH]; [reflexivity|].
    cbn [disconnect_times].
    change (disconnect closed) with (ret (A := RPC) closed).
    now rewrite bind_ret. }
  exists closed. repeat split.
  - intros n. cbn [disconnect_times].
    change (disconnect _) with ((Ok closed, [WsClose]) : IO RPC).
    now rewrite bind_ok, Hagain.
  - intros node c. now rewrite invoke_posts_payload.
Qed.

End AfterClosing.

Lemma reply_is_decoded_or_raises_witness :
  outcome (_post sample.failing_node sample.ws_client (payload call_uptime))
  = Ok (JObj [("error", JStr "Account not found")]).
Proof.
  etransitivity.
  - apply (proj2 (reply_is_decoded_or_raises sample.failing_node sample.ws_client
                    (payload call_uptime)) {| websocket.connected := true |});
      reflexivity.
  - reflexivity.
Defined.

Lemma get_is_http_only_witness :
  _get sample.broken_node sample.ws_client = (Ok JNull, []).
Proof.
  apply (proj1 (get_is_http_only sample.broken_node sample.ws_client)).
  discriminate.
Defined.

Lemma disconnect_closes_once_witness :
  exists closed : RPC,
    disconnect sample.ws_client = (Ok closed, [WsClose])
    /\ __mode closed = __mode sample.ws_client
    /\ __url closed = __url sample.ws_client
    /\ __headers closed = __headers sample.ws_client
    /\ (forall n : nat, disconnect_times (S n) sample.ws_client = (Ok closed, [WsClose]))
    /\ (forall (node : endpoint) (c : call),
          invoke (_post node closed) c
          = (Raise WebSocketConnectionClosedException, [])).
Proof. apply (disconnect_closes_once sample.ws_client); reflexivity. Defined.

(** ** Which fields a method emits *)

Section Conditions.
Context {A : Type} `{Truthy A}.

Lemma keeps_IfElse_false (k : string) (c : A) (s1 s2 : stmt) :
  truthy c = false -> keeps k s2 -> keeps k (if_else c s1 s2).
Proof. intros Hc Hs d. unfold if_else. rewrite Hc. apply Hs. Qed.

Lemma sets_IfElse_false (k : string) (v : json) (c : A) (s1 s2 : stmt) :
  truthy c = false -> sets k v s2 -> sets k v (if_else c s1 s2).
Proof. intros Hc Hs d. unfold if_else. rewrite Hc. apply Hs. Qed.

End Conditions.

Lemma truthy_int_eqb (z : Z) : truthy z = negb (z =? 0).
Proof. reflexivity. Qed.

Lemma truthy_str_eqb (s : string) : truthy s = negb (String.eqb s "").
Proof. now destruct s. Qed.

(** As [frame] and [assigned], with the conditions settled by [tac]. *)
Ltac frame_by tac :=
  repeat lazymatch goal with
  | |- keeps _ (seq _ _) => apply keeps_seq
  | |- keeps _ (if_then _ _) =>
      first [ apply keeps_If_false; tac | apply keeps_If ]
  | |- keeps _ (if_else _ _ _) =>
      first [ apply keeps_IfElse_true; [ tac | ]
            | apply keeps_IfElse_false; [ tac | ]
            | apply keeps_IfElse ]
  | |- keeps _ (assign _ _) => apply keeps_assign; reflexivity
  end.

Ltac assigned_by tac :=
  lazymatch goal with
  | |- sets _ _ (assign _ _) => apply sets_assign; reflexivity
  | |- sets _ _ (if_then _ _) => apply sets_If_true; [ tac | assigned_by tac ]
  | |- sets _ _ (if_else _ _ _) =>
      first [ apply sets_IfElse_true; [ tac | assigned_by tac ]
            | apply sets_IfElse_false; [ tac | assigned_by tac ] ]
  | |- sets _ _ (seq _ _) =>
      first [ apply sets_seq_last; assigned_by tac
            | apply sets_seq_keep; [ assigned_by tac | solve [ frame_by tac ] ] ]
  end.

Ltac known := first [ assumption | reflexivity ].

Ltac emitted :=
  first [ apply lookup_build_sets; assigned_by known
        | apply lookup_build_keeps; solve [ frame_by known ] ].

(** Case analysis on the truth value of an argument, as the test [if x:]
    sees it. *)
Ltac by_int z :=
  let Ht := fresh "Ht" in
  pose proof (truthy_int_eqb z) as Ht;
  destruct (Z.eqb z 0); cbn [negb andb orb] in *.

Ltac by_str s :=
  let Ht := fresh "Ht" in
  pose proof (truthy_str_eqb s) as Ht;
  destruct (String.eqb s ""); cbn [negb andb orb] in *.

Ltac by_flag b := destruct b; cbn [negb andb orb] in *.

(** X6. The flags that default to [True] ([include_only_confirmed],
    [include_cemented], [contents], [watch_work], and [work] of the two
    account creation methods) reach the payload only when the caller passes
    [False], and then as [false]; left out or passed as [True] they are
    absent. *)
Theorem flags_on_by_default_are_sent_only_when_off
    (flag : option bool)
    (account wallet root _hash : string) (accounts : list string)
    (block : str_or_dict)
    (count index threshold : option Z) (amount subtype : option string)
    (source include_active sorting min_version representatives json_block
     force _async : option bool) :
  let sent (k : string) (data : dict) : Prop :=
    lookup k data = if flag ?: true then None else Some (JBool false) in
  sent "include_only_confirmed" (account_balance spy account flag)
  /\ sent "include_only_confirmed" (accounts_balances spy accounts flag)
  /\ sent "include_only_confirmed"
       (accounts_receivable spy accounts count amount source include_active
          sorting flag)
  /\ sent "include_cemented" (block_count spy flag)
  /\ sent "contents" (confirmation_info spy root flag representatives json_block)
  /\ sent "watch_work" (process spy block force subtype json_block flag _async)
  /\ sent "include_only_confirmed"
       (receivable spy account count threshold source include_active min_version
          sorting flag)
  /\ sent "include_only_confirmed" (receivable_exists spy _hash include_active flag)
  /\ sent "work" (account_create spy wallet index flag)
  /\ sent "work" (accounts_create spy wallet count flag)
  /\ sent "include_only_confirmed"
       (wallet_receivable spy wallet count threshold source include_active
          min_version flag).
Proof.
  intros sent. subst sent.
  cbv beta zeta iota delta
    [account_balance accounts_balances accounts_receivable block_count
     confirmation_info process receivable receivable_exists account_create
     accounts_create wallet_receivable spy].
  by_flag (flag ?: true); repeat split; emitted.
Qed.

(** X7. In [block_create] a non-empty [work] is sent and silences
    [difficulty]; [difficulty] is sent only when it is non-empty and [work]
    is empty or left out. *)
Theorem block_create_work_precedes_difficulty
    (balance representative previous : string)
    (wallet account key source destination link work version difficulty : option string)
    (json_block : option bool) :
  let data := block_create spy balance representative previous wallet account key
                source destination link work version json_block difficulty in
  lookup "work" data
  = (if String.eqb (work ?: "") "" then None else Some (JStr (work ?: "")))
  /\ lookup "difficulty" data
     = (if negb (String.eqb (work ?: "") "") || String.eqb (difficulty ?: "") ""
        then None
        else Some (JStr (difficulty ?: ""))).
Proof.
  cbv beta zeta iota delta [block_create spy].
  by_str (work ?: ""); by_str (difficulty ?: ""); split; emitted.
Qed.

(** X8. In [work_generate] and [work_validate], [multiplier] is sent exactly
    when it is non-zero, and [difficulty] exactly when it is non-empty and
    [multiplier] is zero or left out. *)
Theorem difficulty_needs_no_multiplier
    (work _hash : string) (difficulty account version block : option string)
    (multiplier : option Z) (use_peers json_block : option bool) :
  let m := multiplier ?: 0 in
  let d := difficulty ?: "" in
  let fields (data : dict) : Prop :=
    lookup "multiplier" data = (if m =? 0 then None else Some (JInt m))
    /\ lookup "difficulty" data
       = (if negb (m =? 0) || String.eqb d "" then None else Some (JStr d)) in
  fields (work_generate spy _hash use_peers difficulty multiplier account version
            block json_block)
  /\ fields (work_validate spy work _hash difficulty multiplier version).
Proof.
  intros m d fields. subst m d fields.
  cbv beta zeta iota delta [work_generate work_validate spy].
  by_int (multiplier ?: 0); by_str (difficulty ?: ""); repeat split; emitted.
Qed.

(** X9. [telemetry] sends [port] only together with [address]: with a
    non-zero [address] both are sent ([port] defaulting to 7075); with
    [address] zero or left out neither is, whatever [port] was given. *)
Theorem telemetry_port_follows_address (raw : option bool) (address port : option Z) :
  let data := telemetry spy raw address port in
  lookup "address" data
  = (if address ?: 0 =? 0 then None else Some (JInt (address ?: 0)))
  /\ lookup "port" data
     = (if address ?: 0 =? 0 then None else Some (JInt (port ?: 7075))).
Proof.
  cbv beta zeta iota delta [telemetry spy].
  by_int (address ?: 0); split; emitted.
Qed.

(** X10. [republish] sends [count] only along with [sources] or
    [destinations]: when both are zero or left out, a [count] given by the
    caller is dropped; [destinations] is sent exactly when it is non-zero. *)
Theorem republish_count_needs_sources_or_destinations
    (_hash : string) (count sources destinations : option Z) :
  let data := republish spy _hash count sources destinations in
  lookup "count" data
  = (if (sources ?: 0 =? 0) && (destinations ?: 0 =? 0)
     then None
     else Some (JInt (count ?: 1)))
  /\ lookup "destinations" data
     = (if destinations ?: 0 =? 0 then None else Some (JInt (destinations ?: 0))).
Proof.
  cbv beta zeta iota delta [republish spy].
  by_int (sources ?: 0); by_int (destinations ?: 0); split; emitted.
Qed.

(** X11. [work_generate] sends [json_block] only inside a request that
    carries a [block]: [json_block=True] without a block is dropped. *)
Theorem work_generate_json_block_needs_block
    (_hash : string) (difficulty account version block : option string)
    (multiplier : option Z) (use_peers json_block : option bool) :
  let data := work_generate spy _hash use_peers difficulty multiplier account
                version block json_block in
  lookup "block" data
  = (if String.eqb (block ?: "") "" then None else Some (JStr (block ?: "")))
  /\ lookup "json_block" data
     = (if negb (String.eqb (block ?: "") "") && (json_block ?: false)
        then Some (JBool true)
        else None).
Proof.
  cbv beta zeta iota delta [work_generate spy].
  by_str (block ?: ""); by_flag (json_block ?: false); split; emitted.
Qed.

Section Blocks.
Context {codec : JsonCodec}.

(** X12. [sign] always sends a [block] field and always as a string: a
    block given as a string goes as it is (the empty string when left out),
    a block given as a mapping goes as its JSON text.  [process] sends the
    block as it was given, a mapping as a nested object. *)
Theorem sign_sends_block_as_text
    (key wallet account _hash subtype : option string) (block : option str_or_dict)
    (given : str_or_dict) (json_block force watch_work _async : option bool) :
  lookup "block" (sign spy key wallet account block _hash json_block)
  = Some (JStr match block ?: Str "" with
               | Str text => text
               | Dict fields => dumps (to_json fields)
               end)
  /\ lookup "block" (process spy given force subtype json_block watch_work _async)
     = Some match given with
            | Str text => JStr text
            | Dict fields => to_json fields
            end.
Proof.
  cbv beta zeta iota delta [sign process spy].
  split.
  - destruct (block ?: Str "") as [text | fields]; cbn [isinstance_str]; emitted.
  - destruct given as [text | fields]; emitted.
Qed.

End Blocks.

(** X13. [sign] sends the hash it is given under the key ["_hash"], and
    never sends a ["hash"] field. *)
Theorem sign_hash_goes_under_underscore_hash
    {codec : JsonCodec}
    (key wallet account _hash : option string) (block : option str_or_dict)
    (json_block : option bool) :
  let data := sign spy key wallet account block _hash json_block in
  lookup "_hash" data
  = (if String.eqb (_hash ?: "") "" then None else Some (JStr (_hash ?: "")))
  /\ lookup "hash" data = None.
Proof.
  cbv beta zeta iota delta [sign spy].
  by_str (_hash ?: ""); split; emitted.
Qed.

(** X14. The methods that list entries ([account_history],
    [accounts_receivable], [chain], [frontiers], [ledger],
    [representatives], [successors], [unchecked], [unchecked_keys],
    [wallet_receivable]) and [accounts_create] and [wallet_republish]
    always send [count]: the value given, zero included, or 1 when it is
    left out. *)
Theorem count_is_always_sent
    (count : option Z)
    (account block key wallet : string) (accounts : list string)
    (head amount : option string) (threshold offset modified_since : option Z)
    (account_filter : option (list string))
    (raw reverse source include_active sorting representative weight receivable
     json_block min_version include_only_confirmed work : option bool) :
  let sent (data : dict) : Prop := lookup "count" data = Some (JInt (count ?: 1)) in
  sent (account_history spy account count raw head offset reverse account_filter)
  /\ sent (accounts_receivable spy accounts count amount source include_active
             sorting include_only_confirmed)
  /\ sent (chain spy block count offset reverse)
  /\ sent (frontiers spy account count)
  /\ sent (ledger spy account count representative weight receivable modified_since
             sorting threshold)
  /\ sent (representatives spy count sorting)
  /\ sent (successors spy block count offset reverse)
  /\ sent (unchecked spy json_block count)
  /\ sent (unchecked_keys spy key count json_block)
  /\ sent (accounts_create spy wallet count work)
  /\ sent (wallet_receivable spy wallet count threshold source include_active
             min_version include_only_confirmed)
  /\ sent (wallet_republish spy wallet count).
Proof.
  intros sent. subst sent.
  cbv beta zeta iota delta
    [account_history accounts_receivable chain frontiers ledger representatives
     successors unchecked unchecked_keys accounts_create wallet_receivable
     wallet_republish spy].
  repeat split; emitted.
Qed.

(** X15. The other methods with a [count] ([delegators], [epoch_upgrade],
    [receivable], [wallet_change_seed], [unopened]) send it only when it is
    non-zero.  Left out, it is absent from the first four, whose default is
    0, and sent as 1 by [unopened], whose default is 1. *)
Theorem count_is_sent_when_nonzero
    (count : option Z)
    (account key wallet seed : string) (threshold threads : option Z) (epoch : Z)
    (start unopened_account : option string)
    (source include_active min_version sorting include_only_confirmed : option bool) :
  let sent (default : Z) (data : dict) : Prop :=
    lookup "count" data
    = (if count ?: default =? 0 then None else Some (JInt (count ?: default))) in
  sent 0 (delegators spy account threshold count start)
  /\ sent 0 (epoch_upgrade spy epoch key count threads)
  /\ sent 0 (receivable spy account count threshold source include_active
               min_version sorting include_only_confirmed)
  /\ sent 0 (wallet_change_seed spy wallet seed count)
  /\ sent 1 (unopened spy unopened_account count threshold).
Proof.
  intros sent. subst sent.
  cbv beta zeta iota delta
    [delegators epoch_upgrade receivable wallet_change_seed unopened spy].
  by_int (count ?: 0); by_int (count ?: 1); repeat split; emitted.
Qed.

(** ** What no method sends *)

Section Quiet.
Variable allowed : list string.









End Quiet.




